(** * ensenso_node: the capture-to-publication pipeline of the Ensenso ROS node

    A shallow embedding of [src/ensenso_node.cpp]: the [HandeyeCalibration]
    class (constructor, destructor, [grabberCallback], [toImageMsg]) written
    as programs of a small state-and-exception monad over an explicit world
    (the clock, the trace of observable events and the objects behind the
    three shared pointers the driver hands to the callback). A program
    returns, raises a C++ exception, leaves defined behaviour (a read
    outside a buffer) or ends the process ([std::terminate]). *)

From Stdlib Require Import ZArith List String Bool Lia.
From stdpp Require Import base option list strings gmap.

Local Open Scope string_scope.
Local Open Scope list_scope.
Local Open Scope Z_scope.

(** ** Machine integers

    [uint32_t] and [int] values are integers of [Z]; the conversions the
    code goes through are written out. *)

Definition to_uint32 (z : Z) : Z := z mod 2 ^ 32.

Definition to_int (z : Z) : Z :=
  let m := z mod 2 ^ 32 in
  if m <? 2 ^ 31 then m else m - 2 ^ 32.

Definition is_uint32 (z : Z) : Prop := 0 <= z < 2 ^ 32.

(** ** Messages *)

(** [ros::Time], in nanoseconds. *)
Definition Time := Z.

(** [std_msgs::Header]. *)
Record Header := mkHeader {
  stamp : Time;
  frame_id : string
}.

(** [pcl::PCLHeader]; its stamp counts microseconds. *)
Record PCLHeader := mkPCLHeader {
  pcl_seq : Z;
  pcl_stamp : Z;
  pcl_frame_id : string
}.

(** [pcl::PCLImage]: the image buffer the driver delivers. *)
Record PCLImage := mkPCLImage {
  pi_header : PCLHeader;
  pi_height : Z;
  pi_width : Z;
  pi_encoding : string;
  pi_step : Z;
  pi_data : list Byte.byte
}.

(** [sensor_msgs::Image]. *)
Record Image := mkImage {
  img_header : Header;
  img_height : Z;
  img_width : Z;
  img_encoding : string;
  img_step : Z;
  img_data : list Byte.byte
}.

(** [sensor_msgs::CameraInfo]; the calibration numbers are doubles, kept
    as their bit patterns. *)
Record CameraInfo := mkCameraInfo {
  ci_header : Header;
  ci_height : Z;
  ci_width : Z;
  ci_calibration : list Z
}.

(** A default-constructed [sensor_msgs::CameraInfo]. *)
Definition CameraInfo_default : CameraInfo :=
  mkCameraInfo (mkHeader 0 "") 0 0 [].

(** [pcl::PointXYZ], the three floats as bit patterns. *)
Record PointXYZ := mkPointXYZ { px : Z; py : Z; pz : Z }.

(** [pcl::PointCloud<PointXYZ>]. *)
Record PointCloudXYZ := mkPointCloud {
  pc_header : PCLHeader;
  pc_points : list PointXYZ;
  pc_width : Z;
  pc_height : Z;
  pc_is_dense : bool
}.

Definition PairOfImages : Type := PCLImage * PCLImage.

(** The objects behind the three shared pointers of one delivery. *)
Record FrameTriple := mkFrameTriple {
  cloud : PointCloudXYZ;
  rawimages : PairOfImages;
  rectifiedimages : PairOfImages
}.

(** What travels on a topic. A camera publisher sends the image and its
    camera info as a pair. *)
Inductive Message :=
| MsgCamera (image : Image) (info : CameraInfo)
| MsgImage (image : Image)
| MsgCloud (c : PointCloudXYZ).

(** ** OpenCV and cv_bridge *)

Inductive MatType := CV_8UC1 | CV_8UC3.

Definition elemSize (t : MatType) : Z :=
  match t with CV_8UC1 => 1 | CV_8UC3 => 3 end.

(** [cv::Mat(int rows, int cols, int type, void* data)]: a view on the
    caller's buffer. *)
Record Mat := mkMat {
  rows : Z;
  cols : Z;
  mat_type : MatType;
  mat_data : list Byte.byte
}.

Definition Mat_of_buffer (height width : Z) (t : MatType)
    (buf : list Byte.byte) : Mat :=
  mkMat (to_int height) (to_int width) t buf.

(** The number of bytes [toImageMsg] of cv_bridge copies out of the
    buffer of a matrix: [step * rows], in 32-bit arithmetic. *)
Definition copy_size (m : Mat) : Z :=
  to_uint32 (to_uint32 (cols m * elemSize (mat_type m)) * rows m).

(** [cv_bridge::CvImage(header, encoding, mat).toImageMsg()]: the fields
    are filled from the matrix and [step * rows] bytes are copied out of
    its buffer, from the pointer the matrix was given and without a look
    at the length of the buffer. When the buffer is shorter than that the
    copy reads outside it and there is no message to speak of: [None]. *)
Definition CvImage_toImageMsg (header : Header) (encoding : string)
    (m : Mat) : option Image :=
  let step := to_uint32 (cols m * elemSize (mat_type m)) in
  let size := to_uint32 (step * rows m) in
  if size <=? Z.of_nat (length (mat_data m))
  then Some (mkImage header (to_uint32 (rows m)) (to_uint32 (cols m))
                     encoding step (take (Z.to_nat size) (mat_data m)))
  else None.

(** ** The parameter server *)

Inductive XmlRpcValue :=
| XBool (b : bool)
| XInt (z : Z)
| XString (s : string)
| XOther.

(** [NodeHandle::hasParam]. *)
Definition hasParam (ps : gmap string XmlRpcValue) (key : string) : bool :=
  match ps !! key with Some _ => true | None => false end.

(** [NodeHandle::param<std::string>]: the stored value when it is a
    string, the default otherwise. *)
Definition param_string (ps : gmap string XmlRpcValue) (key : string)
    (default : string) : string :=
  match ps !! key with
  | Some (XString s) => s
  | _ => default
  end.

(** [NodeHandle::param<bool>]. *)
Definition param_bool (ps : gmap string XmlRpcValue) (key : string)
    (default : bool) : bool :=
  match ps !! key with
  | Some (XBool b) => b
  | _ => default
  end.

(** [operator<<] on a [bool] (no [boolalpha]). *)
Definition show_bool (b : bool) : string := if b then "1" else "0".

(** ** Outcomes

    How a piece of node code ends: it returns a value, a C++ exception
    leaves it, it has left defined behaviour (from there on the program
    says nothing about what happens), or the process has been ended by
    [std::terminate]. *)

Inductive outcome (A : Type) :=
| Returned (a : A)
| Thrown (what : string)
| Undefined
| Terminated.
Arguments Returned {A} a.
Arguments Thrown {A} what.
Arguments Undefined {A}.
Arguments Terminated {A}.

(** ** The grabber

    [pcl::EnsensoGrabber] is declared in [ensenso/ensenso_grabber.h], which
    is not among the sources: the node only calls it. Its answers are a
    parameter of the development. A call either returns (a success flag,
    which the node never looks at) or raises. The device is asked afresh
    at every call and may answer differently each time: an answer is a
    function of the history, the trace up to and including the call. *)

Inductive answer (A : Type) :=
| Answered (a : A)
| Raised (what : string).
Arguments Answered {A} a.
Arguments Raised {A} what.

Inductive DriverCall :=
| OpenDevice (serial_no : string)
| OpenTcpPort
| ConfigureCapture
| EnableProjector (enable : bool)
| EnableFrontLight (enable : bool)
| RegisterCallback
| Start
| Stop
| CloseTcpPort
| CloseDevice.

(** ** Observable events and the world *)

Inductive Event :=
| Warn (msg : string)
| Advertise (topic : string) (queue_size : Z) (latch : bool)
| Driver (c : DriverCall)
| Query (cam : string)
| Publish (topic : string) (m : Message).

Record EnsensoGrabber := mkGrabber {
  grabber_call : list Event -> DriverCall -> answer bool;
  (** [getCameraInfo(cam, info)]: the flag and the record as the call
      leaves it. *)
  grabber_getCameraInfo :
    list Event -> string -> CameraInfo -> answer (bool * CameraInfo)
}.

Record World := mkWorld {
  clock_reads : nat;
  trace : list Event;
  frame : FrameTriple
}.

(** The order in which a compiler evaluates the arguments of one call. *)
Inductive ArgOrder := LeftToRight | RightToLeft.

(** The language standard of the build: from C++11 on a destructor is
    [noexcept] unless it says otherwise. *)
Inductive Standard := Cxx03 | Cxx11.

(** ** The monad of node code *)

Definition M (A : Type) : Type := World -> outcome A * World.

Definition ret {A} (a : A) : M A := fun w => (Returned a, w).

Definition bind {A B} (c : M A) (k : A -> M B) : M B :=
  fun w =>
    match c w with
    | (Returned a, w') => k a w'
    | (Thrown e, w') => (Thrown e, w')
    | (Undefined, w') => (Undefined, w')
    | (Terminated, w') => (Terminated, w')
    end.

(** The outcome of a call of the grabber that answered [a]. *)
Definition outcome_of {A} (a : answer A) : outcome A :=
  match a with Answered x => Returned x | Raised e => Thrown e end.

Definition ask {A} (a : answer A) : M A := fun w => (outcome_of a, w).

(** An exception that leaves a destructor: it goes on to the caller in a
    C++03 build and ends the process from C++11 on. *)
Definition leave_destructor {A} (cxx : Standard) (c : M A) : M A :=
  fun w =>
    match c w with
    | (Thrown e, w') =>
        match cxx with
        | Cxx03 => (Thrown e, w')
        | Cxx11 => (Terminated, w')
        end
    | r => r
    end.

Declare Scope node_scope.
Delimit Scope node_scope with node.
Notation "x <- c1 ;; c2" := (bind c1 (fun x => c2))
  (at level 100, c1 at next level, right associativity) : node_scope.
Notation "c1 ;; c2" := (bind c1 (fun _ => c2))
  (at level 100, right associativity) : node_scope.

Definition emit (e : Event) : M unit :=
  fun w => (Returned tt, mkWorld (clock_reads w) (trace w ++ [e]) (frame w)).

Definition when (b : bool) (c : M unit) : M unit :=
  if b then c else ret tt.

Definition get_frame : M FrameTriple := fun w => (Returned (frame w), w).

Definition put_cloud (c : PointCloudXYZ) : M unit :=
  fun w =>
    (Returned tt,
     mkWorld (clock_reads w) (trace w)
             (mkFrameTriple c (rawimages (frame w)) (rectifiedimages (frame w)))).

(** ** Publishers *)

Record Publisher := mkPublisher {
  pub_topic : string;
  pub_queue : Z;
  pub_latch : bool
}.

(** [ImageTransport::advertiseCamera(base_topic, queue_size)] and
    [ImageTransport::advertise(base_topic, queue_size)]: the latch argument
    is left at its default, [false]. *)
Definition advertiseCamera (base_topic : string) (queue_size : Z) : M Publisher :=
  (emit (Advertise base_topic queue_size false) ;;
   ret (mkPublisher base_topic queue_size false))%node.

Definition it_advertise (base_topic : string) (queue_size : Z) : M Publisher :=
  (emit (Advertise base_topic queue_size false) ;;
   ret (mkPublisher base_topic queue_size false))%node.

(** [NodeHandle::advertise<T>(topic, queue_size, latch)]. *)
Definition nh_advertise (topic : string) (queue_size : Z) (latch : bool) : M Publisher :=
  (emit (Advertise topic queue_size latch) ;;
   ret (mkPublisher topic queue_size latch))%node.

Definition set_stamp (h : Header) (t : Time) : Header :=
  mkHeader t (frame_id h).

Definition set_frame_id (h : Header) (f : string) : Header :=
  mkHeader (stamp h) f.

(** [CameraPublisher::publish(image, info, stamp)]: both headers get
    [stamp], then the pair is sent. *)
Definition CameraPublisher_publish (p : Publisher) (image : Image)
    (info : CameraInfo) (t : Time) : M unit :=
  let image' := mkImage (set_stamp (img_header image) t) (img_height image)
                        (img_width image) (img_encoding image)
                        (img_step image) (img_data image) in
  let info' := mkCameraInfo (set_stamp (ci_header info) t) (ci_height info)
                            (ci_width info) (ci_calibration info) in
  emit (Publish (pub_topic p) (MsgCamera image' info')).

(** [image_transport::Publisher::publish(image)]. *)
Definition Publisher_publish (p : Publisher) (image : Image) : M unit :=
  emit (Publish (pub_topic p) (MsgImage image)).

(** [ros::Publisher::publish(cloud)]. *)
Definition cloud_publish (p : Publisher) (c : PointCloudXYZ) : M unit :=
  emit (Publish (pub_topic p) (MsgCloud c)).

(** ** The node: class [HandeyeCalibration] *)

Record HandeyeCalibration := mkNode {
  l_raw_pub_ : Publisher;
  r_raw_pub_ : Publisher;
  l_rectified_pub_ : Publisher;
  r_rectified_pub_ : Publisher;
  cloud_pub_ : Publisher;
  camera_frame_id_ : string
}.

(** The values the constructor reads from the parameter server. *)
Record Parameters := mkParameters {
  serial_no : string;
  camera_frame_id : string;
  front_light : bool;
  projector : bool
}.

Definition CameraInfo_with_frame (info : CameraInfo) (f : string) : CameraInfo :=
  mkCameraInfo (set_frame_id (ci_header info) f) (ci_height info)
               (ci_width info) (ci_calibration info).

Definition cloud_with_frame (c : PointCloudXYZ) (f : string) : PointCloudXYZ :=
  mkPointCloud
    (mkPCLHeader (pcl_seq (pc_header c)) (pcl_stamp (pc_header c)) f)
    (pc_points c) (pc_width c) (pc_height c) (pc_is_dense c).

Section Node.

(** The grabber behind [ensenso_ptr_], the answers of [ros::Time::now()]
    (the k-th read of the clock gets [ros_time_now k]), the compiler's
    choice of argument order and the language standard. *)
Variable ensenso : EnsensoGrabber.
Variable ros_time_now : nat -> Time.
Variable arg_order : ArgOrder.
Variable cxx : Standard.

Definition now : M Time :=
  fun w =>
    (Returned (ros_time_now (clock_reads w)),
     mkWorld (S (clock_reads w)) (trace w) (frame w)).

Definition driver (c : DriverCall) : M bool :=
  (emit (Driver c) ;; fun w => ask (grabber_call ensenso (trace w) c) w)%node.

Definition getCameraInfo (cam : string) (info : CameraInfo)
    : M (bool * CameraInfo) :=
  (emit (Query cam) ;;
   fun w => ask (grabber_getCameraInfo ensenso (trace w) cam info) w)%node.

(** [toImageMsg], lines 118-133. *)
Definition toImageMsg (pcl_image : PCLImage) : M Image :=
  (let image_array := pi_data pcl_image in
   let '(type, encoding) :=
     if String.eqb (pi_encoding pcl_image) "CV_8UC3"
     then (CV_8UC3, "bgr8")
     else (CV_8UC1, "mono8") in
   let image_mat :=
     Mat_of_buffer (pi_height pcl_image) (pi_width pcl_image) type image_array in
   t <- now ;;
   let header := mkHeader t "world" in
   match CvImage_toImageMsg header encoding image_mat with
   | Some m => ret m
   | None => fun w => (Undefined, w)
   end)%node.

(** The arguments [*toImageMsg(image)] and [ros::Time::now()] of one
    [publish] call, evaluated in the compiler's order. *)
Definition image_and_stamp (image : PCLImage) : M (Image * Time) :=
  (match arg_order with
   | LeftToRight => m <- toImageMsg image ;; t <- now ;; ret (m, t)
   | RightToLeft => t <- now ;; m <- toImageMsg image ;; ret (m, t)
   end)%node.

(** [grabberCallback], lines 99-116. *)
Definition grabberCallback (self : HandeyeCalibration) : M unit :=
  (l <- getCameraInfo "Left" CameraInfo_default ;;
   r <- getCameraInfo "Right" CameraInfo_default ;;
   let linfo := CameraInfo_with_frame (snd l) (camera_frame_id_ self) in
   let rinfo := CameraInfo_with_frame (snd r) (camera_frame_id_ self) in
   f <- get_frame ;;
   a <- image_and_stamp (fst (rawimages f)) ;;
   CameraPublisher_publish (l_raw_pub_ self) (fst a) linfo (snd a) ;;
   f <- get_frame ;;
   a <- image_and_stamp (snd (rawimages f)) ;;
   CameraPublisher_publish (r_raw_pub_ self) (fst a) rinfo (snd a) ;;
   f <- get_frame ;;
   m <- toImageMsg (fst (rectifiedimages f)) ;;
   Publisher_publish (l_rectified_pub_ self) m ;;
   f <- get_frame ;;
   m <- toImageMsg (snd (rectifiedimages f)) ;;
   Publisher_publish (r_rectified_pub_ self) m ;;
   f <- get_frame ;;
   put_cloud (cloud_with_frame (cloud f) (camera_frame_id_ self)) ;;
   f <- get_frame ;;
   cloud_publish (cloud_pub_ self) (cloud f))%node.

(** The constructor, lines 53-91, in the four parts its comments name. *)

(** "Read parameters", lines 56-70. *)
Definition read_parameters (ps : gmap string XmlRpcValue) : M Parameters :=
  (let serial_no := param_string ps "serial_no" "150533" in
   when (negb (hasParam ps "serial_no"))
     (emit (Warn ("Parameter [~serial_no] not found, using default: "
                  +:+ serial_no))) ;;
   let camera_frame_id :=
     param_string ps "camera_frame_id" "ensenso_optical_frame" in
   when (negb (hasParam ps "camera_frame_id"))
     (emit (Warn ("Parameter [~camera_frame_id] not found, using default: "
                  +:+ camera_frame_id))) ;;
   let front_light := param_bool ps "front_light" false in
   when (negb (hasParam ps "front_light"))
     (emit (Warn ("Parameter [~front_light] not found, using default: "
                  +:+ show_bool front_light))) ;;
   let projector := param_bool ps "projector" false in
   when (negb (hasParam ps "projector"))
     (emit (Warn ("Parameter [~projector] not found, using default: "
                  +:+ show_bool projector))) ;;
   ret (mkParameters serial_no camera_frame_id front_light projector))%node.

(** "Advertise topics", lines 71-77. *)
Definition advertise_topics (p : Parameters) : M HandeyeCalibration :=
  (l_raw <- advertiseCamera "left/image_raw" 2 ;;
   r_raw <- advertiseCamera "right/image_raw" 2 ;;
   l_rect <- it_advertise "left/image_rect" 2 ;;
   r_rect <- it_advertise "right/image_rect" 2 ;;
   cloud_pub <- nh_advertise "depth/points" 2 true ;;
   ret (mkNode l_raw r_raw l_rect r_rect cloud_pub (camera_frame_id p)))%node.

(** "Initialize Ensenso" and "Start ensenso grabber", lines 78-90. *)
Definition initialize_ensenso (p : Parameters) : M unit :=
  (driver (OpenDevice (serial_no p)) ;;
   driver OpenTcpPort ;;
   driver ConfigureCapture ;;
   driver (EnableProjector (projector p)) ;;
   driver (EnableFrontLight (front_light p)) ;;
   driver RegisterCallback ;;
   driver Start ;;
   ret tt)%node.

Definition HandeyeCalibration_ctor (ps : gmap string XmlRpcValue)
    : M HandeyeCalibration :=
  (p <- read_parameters ps ;;
   self <- advertise_topics p ;;
   initialize_ensenso p ;;
   ret self)%node.

(** The destructor, lines 93-97. *)
Definition HandeyeCalibration_dtor (self : HandeyeCalibration) : M unit :=
  leave_destructor cxx
    (driver CloseTcpPort ;;
     driver CloseDevice ;;
     ret tt)%node.

(** One delivery by the acquisition thread: the triple's objects are put
    behind the shared pointers and the registered callback runs. *)
Definition deliver (self : HandeyeCalibration) (t : FrameTriple)
    (w : World) : outcome unit * World :=
  grabberCallback self (mkWorld (clock_reads w) (trace w) t).

(** The deliveries of a run, one after the other. After a callback that
    left defined behaviour or ended the process there is no next one. *)
Fixpoint deliver_all (self : HandeyeCalibration) (ts : list FrameTriple)
    (w : World) : World :=
  match ts with
  | [] => w
  | t :: ts' =>
      match deliver self t w with
      | (Undefined, w') | (Terminated, w') => w'
      | (_, w') => deliver_all self ts' w'
      end
  end.

End Node.

(** ** Reading a trace *)

Definition publication (e : Event) : option (string * Message) :=
  match e with Publish t m => Some (t, m) | _ => None end.

Definition publications (tr : list Event) : list (string * Message) :=
  omap publication tr.

Definition driver_call_of (e : Event) : option DriverCall :=
  match e with Driver c => Some c | _ => None end.

Definition driver_calls (tr : list Event) : list DriverCall :=
  omap driver_call_of tr.

Definition warning_of (e : Event) : option string :=
  match e with Warn s => Some s | _ => None end.

Definition warnings (tr : list Event) : list string :=
  omap warning_of tr.

(** The part of the trace a computation started in [w] has added. *)
Definition emitted (w w' : World) : list Event :=
  drop (length (trace w)) (trace w').

(** The artifacts of a publication with the label and the capture instant
    each one carries. [pcl_conversions] turns the cloud's microseconds into
    a [ros::Time]. *)
Inductive ArtifactKind := RawImage | Intrinsics | RectifiedImage | Cloud.

Record Artifact := mkArtifact {
  a_topic : string;
  a_kind : ArtifactKind;
  a_frame : string;
  a_stamp : Time
}.

Definition fromPCL_stamp (s : Z) : Time := s * 1000.

Definition artifacts_of (p : string * Message) : list Artifact :=
  match p with
  | (t, MsgCamera image info) =>
      [ mkArtifact t RawImage (frame_id (img_header image)) (stamp (img_header image));
        mkArtifact t Intrinsics (frame_id (ci_header info)) (stamp (ci_header info)) ]
  | (t, MsgImage image) =>
      [ mkArtifact t RectifiedImage (frame_id (img_header image)) (stamp (img_header image)) ]
  | (t, MsgCloud c) =>
      [ mkArtifact t Cloud (pcl_frame_id (pc_header c)) (fromPCL_stamp (pcl_stamp (pc_header c))) ]
  end.

Definition artifacts (tr : list Event) : list Artifact :=
  flat_map artifacts_of (publications tr).

(** ** The transport: latched and transient topics

    [advertise] creates a topic; a latched topic keeps the last message
    published on it and hands it to a subscriber that connects later, a
    topic that is not latched keeps nothing. *)

Record Topic := mkTopic {
  latched : bool;
  retained : option Message
}.

Definition transport_step (T : gmap string Topic) (e : Event) : gmap string Topic :=
  match e with
  | Advertise t _ l => <[t := mkTopic l None]> T
  | Publish t m =>
      match T !! t with
      | Some ch => if latched ch then <[t := mkTopic true (Some m)]> T else T
      | None => T
      end
  | _ => T
  end.

Definition transport (tr : list Event) : gmap string Topic :=
  fold_left transport_step tr ∅.

(** What a subscriber that connects to [topic] now receives at once. *)
Definition late_subscriber (T : gmap string Topic) (topic : string) : option Message :=
  match T !! topic with
  | Some ch => retained ch
  | None => None
  end.

(** ** Concrete inputs *)

Definition ex_world (t : FrameTriple) : World := mkWorld 0 [] t.

Definition ex_header : PCLHeader := mkPCLHeader 7 1700000000000000 "".

Definition ex_image (h w : Z) (enc : string) (n : Z) : PCLImage :=
  mkPCLImage ex_header h w enc
             (if String.eqb enc "CV_8UC3" then 3 * w else w)
             (repeat Byte.x2a (Z.to_nat n)).

Definition ex_cloud : PointCloudXYZ :=
  mkPointCloud ex_header [mkPointXYZ 1 2 3; mkPointXYZ 4 5 6] 2 1 true.

Definition ex_triple : FrameTriple :=
  mkFrameTriple ex_cloud
    (ex_image 2 2 "CV_8UC3" 12, ex_image 2 2 "CV_8UC1" 4)
    (ex_image 2 2 "CV_8UC1" 4, ex_image 2 2 "CV_8UC1" 4).

(** A clock that advances by one millisecond between two reads. *)
Definition ex_clock (k : nat) : Time := 1700000000000000000 + 1000000 * Z.of_nat k.

Definition ex_info (cam : string) (info : CameraInfo) : CameraInfo :=
  mkCameraInfo (ci_header info) 1024 1280
               (if String.eqb cam "Left" then [1; 2; 3] else [4; 5; 6]).

(** A grabber all of whose calls succeed. *)
Definition ex_grabber : EnsensoGrabber :=
  mkGrabber (fun _ _ => Answered true)
            (fun _ cam info => Answered (true, ex_info cam info)).

(** A grabber whose intrinsics query fails for the left eye: it reports
    the failure and leaves the record as it got it. *)
Definition ex_grabber_left_fails : EnsensoGrabber :=
  mkGrabber (fun _ _ => Answered true)
            (fun _ cam info =>
               if String.eqb cam "Left" then Answered (false, info)
               else Answered (true, ex_info cam info)).

(** A grabber whose intrinsics query raises for the left eye. *)
Definition ex_grabber_left_throws : EnsensoGrabber :=
  mkGrabber (fun _ _ => Answered true)
            (fun _ cam info =>
               if String.eqb cam "Left" then Raised "NxLibException"
               else Answered (true, ex_info cam info)).

(** A grabber that cannot reach the device: opening it and the control
    channel report failure. *)
Definition ex_grabber_unreachable : EnsensoGrabber :=
  mkGrabber (fun _ c =>
               match c with
               | OpenDevice _ | OpenTcpPort => Answered false
               | _ => Answered true
               end)
            (fun _ cam info => Answered (false, info)).

(** The node the constructor builds from an empty parameter server. *)
Definition ex_node : HandeyeCalibration :=
  mkNode (mkPublisher "left/image_raw" 2 false)
         (mkPublisher "right/image_raw" 2 false)
         (mkPublisher "left/image_rect" 2 false)
         (mkPublisher "right/image_rect" 2 false)
         (mkPublisher "depth/points" 2 true)
         "ensenso_optical_frame".

(** ** Closed forms used by the statements *)

(** The encoding [toImageMsg] chooses. *)
Definition output_encoding (driver_encoding : string) : string :=
  if String.eqb driver_encoding "CV_8UC3" then "bgr8" else "mono8".

Definition output_type (driver_encoding : string) : MatType :=
  if String.eqb driver_encoding "CV_8UC3" then CV_8UC3 else CV_8UC1.

(** The matrix [toImageMsg] lays over the buffer of an image. *)
Definition image_mat (pcl_image : PCLImage) : Mat :=
  Mat_of_buffer (pi_height pcl_image) (pi_width pcl_image)
                (output_type (pi_encoding pcl_image)) (pi_data pcl_image).

(** The bytes the conversion of an image reads, and whether the buffer
    holds them. *)
Definition bytes_read (pcl_image : PCLImage) : Z :=
  copy_size (image_mat pcl_image).

Definition in_bounds (pcl_image : PCLImage) : bool :=
  bytes_read pcl_image <=? Z.of_nat (length (pi_data pcl_image)).

(** The four buffers of a triple hold what their conversions read. *)
Definition triple_in_bounds (t : FrameTriple) : bool :=
  in_bounds (fst (rawimages t)) && in_bounds (snd (rawimages t)) &&
  in_bounds (fst (rectifiedimages t)) && in_bounds (snd (rectifiedimages t)).

(** The message [toImageMsg] builds, when it builds one, the clock
    answering [t]. *)
Definition image_msg (pcl_image : PCLImage) (t : Time) : Image :=
  let m := image_mat pcl_image in
  mkImage (mkHeader t "world") (to_uint32 (rows m)) (to_uint32 (cols m))
          (output_encoding (pi_encoding pcl_image))
          (to_uint32 (cols m * elemSize (mat_type m)))
          (take (Z.to_nat (copy_size m)) (mat_data m)).

Definition tick (w : World) : World :=
  mkWorld (S (clock_reads w)) (trace w) (frame w).

Definition log (e : Event) (w : World) : World :=
  mkWorld (clock_reads w) (trace w ++ [e]) (frame w).

(** The clock read that supplies the stamp of a paired publication whose
    two arguments are evaluated from read [k] on. *)
Definition stamp_read (o : ArgOrder) (k : nat) : nat :=
  match o with LeftToRight => S k | RightToLeft => k end.

(** A camera info as it is sent: labelled by the callback, stamped by the
    publisher. *)
Definition info_msg (info : CameraInfo) (f : string) (t : Time) : CameraInfo :=
  mkCameraInfo (mkHeader t f) (ci_height info) (ci_width info)
               (ci_calibration info).

(** The five publications of a callback that starts at clock read [k] on
    the triple [f], the intrinsics queries having left [li] and [ri]. *)
Definition callback_publications (ros_time_now : nat -> Time) (o : ArgOrder)
    (self : HandeyeCalibration) (f : FrameTriple) (k : nat)
    (li ri : CameraInfo) : list (string * Message) :=
  let tl := ros_time_now (stamp_read o k) in
  let tr := ros_time_now (stamp_read o (2 + k)) in
  [ (pub_topic (l_raw_pub_ self),
     MsgCamera (image_msg (fst (rawimages f)) tl)
               (info_msg li (camera_frame_id_ self) tl));
    (pub_topic (r_raw_pub_ self),
     MsgCamera (image_msg (snd (rawimages f)) tr)
               (info_msg ri (camera_frame_id_ self) tr));
    (pub_topic (l_rectified_pub_ self),
     MsgImage (image_msg (fst (rectifiedimages f)) (ros_time_now (4 + k)%nat)));
    (pub_topic (r_rectified_pub_ self),
     MsgImage (image_msg (snd (rectifiedimages f)) (ros_time_now (5 + k)%nat)));
    (pub_topic (cloud_pub_ self),
     MsgCloud (cloud_with_frame (cloud f) (camera_frame_id_ self))) ].

Definition publish_event (p : string * Message) : Event :=
  Publish (fst p) (snd p).

(** ** The properties the specification words, as predicates *)

(** Every artifact carries the label [f]. *)
Definition all_labelled (f : string) (arts : list Artifact) : Prop :=
  forall a, In a arts -> a_frame a = f.

(** Every artifact carries the same capture instant. *)
Definition same_capture_instant (arts : list Artifact) : Prop :=
  forall a b, In a arts -> In b arts -> a_stamp a = a_stamp b.

(** The intrinsics query for [cam] fails at the history [h]: it raises,
    or reports failure. *)
Definition query_fails (g : EnsensoGrabber) (h : list Event) (cam : string) : Prop :=
  match grabber_getCameraInfo g h cam CameraInfo_default with
  | Answered (true, _) => False
  | _ => True
  end.

(** Partial-failure isolation for the left eye, as the specification
    words it: the callback returns, nothing goes out on the left raw
    channel and the four other channels get their artifact. *)
Definition left_failure_isolated (self : HandeyeCalibration)
    (r : outcome unit) (evs : list Event) : Prop :=
  r = Returned tt /\
  ~ In (pub_topic (l_raw_pub_ self)) (map fst (publications evs)) /\
  In (pub_topic (r_raw_pub_ self)) (map fst (publications evs)) /\
  In (pub_topic (l_rectified_pub_ self)) (map fst (publications evs)) /\
  In (pub_topic (r_rectified_pub_ self)) (map fst (publications evs)) /\
  In (pub_topic (cloud_pub_ self)) (map fst (publications evs)).

(** The teardown sequence of the specification. *)
Definition specified_teardown : list DriverCall :=
  [Stop; CloseTcpPort; CloseDevice].

(** The device is unreachable: opening it or its control channel never
    succeeds. *)
Definition device_unreachable (g : EnsensoGrabber) (serial : string) : Prop :=
  (forall h, grabber_call g h (OpenDevice serial) <> Answered true) \/
  (forall h, grabber_call g h OpenTcpPort <> Answered true).

Definition is_advertise (e : Event) : bool :=
  match e with Advertise _ _ _ => true | _ => false end.

(** Initialization fails hard and advertises nothing. *)
Definition fails_hard_without_advertising {A} (r : outcome A)
    (evs : list Event) : Prop :=
  (exists e, r = Thrown e) /\ filter is_advertise evs = [].

(** All of a cloud but its frame label. *)
Definition cloud_payload (c : PointCloudXYZ)
    : Z * Z * list PointXYZ * Z * Z * bool :=
  (pcl_seq (pc_header c), pcl_stamp (pc_header c), pc_points c,
   pc_width c, pc_height c, pc_is_dense c).

Definition is_cloud_msg (m : Message) : option PointCloudXYZ :=
  match m with MsgCloud c => Some c | _ => None end.

(** ** Closed forms of the constructor *)

(** The values [read_parameters] ends with. *)
Definition parameters_of (ps : gmap string XmlRpcValue) : Parameters :=
  mkParameters (param_string ps "serial_no" "150533")
               (param_string ps "camera_frame_id" "ensenso_optical_frame")
               (param_bool ps "front_light" false)
               (param_bool ps "projector" false).

Definition missing_warning (ps : gmap string XmlRpcValue) (key shown : string)
    : list Event :=
  if hasParam ps key then []
  else [Warn ("Parameter [~" +:+ key +:+ "] not found, using default: " +:+ shown)].

Definition parameter_warnings (ps : gmap string XmlRpcValue) : list Event :=
  missing_warning ps "serial_no" (serial_no (parameters_of ps)) ++
  missing_warning ps "camera_frame_id" (camera_frame_id (parameters_of ps)) ++
  missing_warning ps "front_light" (show_bool (front_light (parameters_of ps))) ++
  missing_warning ps "projector" (show_bool (projector (parameters_of ps))).

Definition advertised : list Event :=
  [ Advertise "left/image_raw" 2 false;
    Advertise "right/image_raw" 2 false;
    Advertise "left/image_rect" 2 false;
    Advertise "right/image_rect" 2 false;
    Advertise "depth/points" 2 true ].

Definition node_of (p : Parameters) : HandeyeCalibration :=
  mkNode (mkPublisher "left/image_raw" 2 false)
         (mkPublisher "right/image_raw" 2 false)
         (mkPublisher "left/image_rect" 2 false)
         (mkPublisher "right/image_rect" 2 false)
         (mkPublisher "depth/points" 2 true)
         (camera_frame_id p).

Definition startup_calls (p : Parameters) : list DriverCall :=
  [ OpenDevice (serial_no p); OpenTcpPort; ConfigureCapture;
    EnableProjector (projector p); EnableFrontLight (front_light p);
    RegisterCallback; Start ].

(** ** The configuration options and their documented defaults *)

Inductive ConfigOption := SerialNo | CameraFrameId | FrontLight | Projector.

Definition option_key (o : ConfigOption) : string :=
  match o with
  | SerialNo => "serial_no"
  | CameraFrameId => "camera_frame_id"
  | FrontLight => "front_light"
  | Projector => "projector"
  end.

(** The table of defaults of the specification; the placeholder serial
    is the one of the code. *)
Definition documented_default (o : ConfigOption) : XmlRpcValue :=
  match o with
  | SerialNo => XString "150533"
  | CameraFrameId => XString "ensenso_optical_frame"
  | FrontLight => XBool false
  | Projector => XBool false
  end.

Definition option_value (p : Parameters) (o : ConfigOption) : XmlRpcValue :=
  match o with
  | SerialNo => XString (serial_no p)
  | CameraFrameId => XString (camera_frame_id p)
  | FrontLight => XBool (front_light p)
  | Projector => XBool (projector p)
  end.

Definition show_value (v : XmlRpcValue) : string :=
  match v with
  | XString s => s
  | XBool b => show_bool b
  | _ => ""
  end.

Definition default_warning (o : ConfigOption) : string :=
  "Parameter [~" +:+ option_key o +:+ "] not found, using default: "
  +:+ show_value (documented_default o).

(** The last message published on [topic]. *)
Definition published_on (topic : string) (e : Event) : option Message :=
  match e with
  | Publish t m => if String.eqb t topic then Some m else None
  | _ => None
  end.

Definition last_publication (topic : string) (tr : list Event) : option Message :=
  last (omap (published_on topic) tr).

(** The four image channels. *)
Definition image_topics : list string :=
  [ "left/image_raw"; "right/image_raw"; "left/image_rect"; "right/image_rect" ].

(** The state of the transport the node works with: the cloud topic is
    latched, the image topics are not and keep nothing. *)
Definition node_transport (T : gmap string Topic) : Prop :=
  (exists r, T !! "depth/points" = Some (mkTopic true r)) /\
  forall t, In t image_topics -> T !! t = Some (mkTopic false None).

(** A grabber whose control channel reports a failure on closing. *)
Definition ex_grabber_close_fails : EnsensoGrabber :=
  mkGrabber (fun _ c => match c with CloseTcpPort => Answered false | _ => Answered true end)
            (fun _ cam info => Answered (true, ex_info cam info)).

(** ** Further notions used by the properties of the code *)

(** Bytes per pixel of the matrix [toImageMsg] builds for a driver tag. *)
Definition channels (driver_encoding : string) : Z :=
  elemSize (output_type driver_encoding).

(** A value that fits an [int] and is not negative. *)
Definition is_dimension (z : Z) : Prop := 0 <= z < 2 ^ 31.

(** A clock that never runs backwards. *)
Definition monotone_clock (ros_time_now : nat -> Time) : Prop :=
  forall i j : nat, (i <= j)%nat -> ros_time_now i <= ros_time_now j.

Definition all_options : list ConfigOption :=
  [SerialNo; CameraFrameId; FrontLight; Projector].

(** The type [param] asks of the stored value of an option. *)
Definition well_typed (o : ConfigOption) (v : XmlRpcValue) : bool :=
  match o, v with
  | SerialNo, XString _ | CameraFrameId, XString _ => true
  | FrontLight, XBool _ | Projector, XBool _ => true
  | _, _ => false
  end.

(** The topics of the five publishers, in the order of the fields. *)
Definition node_topics (self : HandeyeCalibration) : list string :=
  [ pub_topic (l_raw_pub_ self); pub_topic (r_raw_pub_ self);
    pub_topic (l_rectified_pub_ self); pub_topic (r_rectified_pub_ self);
    pub_topic (cloud_pub_ self) ].

(** A grabber that raises when the control channel is closed. *)
Definition ex_grabber_close_raises : EnsensoGrabber :=
  mkGrabber (fun _ c => match c with CloseTcpPort => Raised "NxLibException" | _ => Answered true end)
            (fun _ cam info => Answered (true, ex_info cam info)).

(** A parameter server with a label, and a front-light switch that was
    stored as a string. *)
Definition ex_params : gmap string XmlRpcValue :=
  <["camera_frame_id" := XString "camera_link"]>
    (<["front_light" := XString "true"]> ∅).

(** ** Further closed forms *)

(** The answers of the two intrinsics queries of a callback that starts
    in [w]: each query is logged and then answered. *)
Definition left_answer (g : EnsensoGrabber) (w : World)
    : answer (bool * CameraInfo) :=
  grabber_getCameraInfo g (trace w ++ [Query "Left"]) "Left" CameraInfo_default.

Definition right_answer (g : EnsensoGrabber) (w : World)
    : answer (bool * CameraInfo) :=
  grabber_getCameraInfo g (trace w ++ [Query "Left"; Query "Right"]) "Right"
                        CameraInfo_default.

(** The conversion as the specification words it: it gives a message
    with the mapped encoding and the dimensions of the input. *)
Definition conversion_succeeds (pcl_image : PCLImage) (r : outcome Image) : Prop :=
  exists m, r = Returned m /\
    img_encoding m = output_encoding (pi_encoding pcl_image) /\
    img_height m = pi_height pcl_image /\
    img_width m = pi_width pcl_image.

(** The seven artifacts of a callback in the fixed order, by channel and
    kind. *)
Definition emission_order (self : HandeyeCalibration)
    : list (string * ArtifactKind) :=
  [ (pub_topic (l_raw_pub_ self), RawImage);
    (pub_topic (l_raw_pub_ self), Intrinsics);
    (pub_topic (r_raw_pub_ self), RawImage);
    (pub_topic (r_raw_pub_ self), Intrinsics);
    (pub_topic (l_rectified_pub_ self), RectifiedImage);
    (pub_topic (r_rectified_pub_ self), RectifiedImage);
    (pub_topic (cloud_pub_ self), Cloud) ].

Definition artifact_order (evs : list Event) : list (string * ArtifactKind) :=
  map (fun a => (a_topic a, a_kind a)) (artifacts evs).

(** The numbers of artifacts a callback can have sent when it ends: an
    image is never sent without its intrinsics. *)
Definition artifact_counts : list nat := [0; 2; 4; 5; 7]%nat.

(** The clouds among some publications. *)
Definition published_clouds (pubs : list (string * Message)) : list PointCloudXYZ :=
  omap (fun p => is_cloud_msg (snd p)) pubs.

(** A grabber whose first intrinsics query ever raises and whose later
    ones succeed: its answers change from one delivery to the next. *)
Definition ex_grabber_warming_up : EnsensoGrabber :=
  mkGrabber (fun _ _ => Answered true)
            (fun h cam info =>
               match h with
               | [Query _] => Raised "NxLibException"
               | _ => Answered (true, ex_info cam info)
               end).

(** A triple whose right rectified image is two bytes short. *)
Definition ex_triple_cut : FrameTriple :=
  mkFrameTriple ex_cloud
    (ex_image 2 2 "CV_8UC3" 12, ex_image 2 2 "CV_8UC1" 4)
    (ex_image 2 2 "CV_8UC1" 4, ex_image 2 2 "CV_8UC1" 2).

(** * Properties *)

(** ** Integer conversions *)

Lemma to_uint32_to_int (z : Z) : is_uint32 z -> to_uint32 (to_int z) = z.
Proof.
  unfold is_uint32, to_uint32, to_int. intros Hz.
  rewrite (Z.mod_small z) by lia.
  destruct (z <? 2 ^ 31) eqn:E.
  - apply Z.mod_small. lia.
  - apply Z.ltb_ge in E.
    symmetry. apply (Z.mod_unique _ _ (-1)); lia.
Qed.

(** ** The conversion *)

Section Conversion.

Variable ros_time_now : nat -> Time.

(** [toImageMsg] reads the clock once; it gives its message when the
    buffer holds the bytes it copies and leaves defined behaviour when
    it does not. *)
Lemma toImageMsg_run (pcl_image : PCLImage) (w : World) :
  toImageMsg ros_time_now pcl_image w =
  (if in_bounds pcl_image
   then Returned (image_msg pcl_image (ros_time_now (clock_reads w)))
   else Undefined,
   tick w).
Proof.
  unfold toImageMsg, image_msg, in_bounds, bytes_read, image_mat, copy_size,
    output_encoding, output_type, CvImage_toImageMsg, bind, now.
  destruct (String.eqb (pi_encoding pcl_image) "CV_8UC3"); cbn;
    match goal with |- context [if ?c then _ else _] => destruct c end;
    reflexivity.
Qed.

Lemma image_msg_height (pcl_image : PCLImage) (t : Time) :
  is_uint32 (pi_height pcl_image) ->
  img_height (image_msg pcl_image t) = pi_height pcl_image.
Proof. intros H. simpl. by apply to_uint32_to_int. Qed.

Lemma image_msg_width (pcl_image : PCLImage) (t : Time) :
  is_uint32 (pi_width pcl_image) ->
  img_width (image_msg pcl_image t) = pi_width pcl_image.
Proof. intros H. simpl. by apply to_uint32_to_int. Qed.

(** C2, as the code has it. For every image whose dimensions are
    [uint32_t] values and whose buffer holds at least the step x rows
    bytes the conversion copies, [toImageMsg] returns a message: its
    encoding is "bgr8" when the driver's tag is "CV_8UC3" and "mono8" for
    every other tag, recognized or not, and it has the height and the
    width of the input. *)
Theorem C2_toImageMsg_in_bounds_encoding_dimensions
    (pcl_image : PCLImage) (w : World) :
  is_uint32 (pi_height pcl_image) ->
  is_uint32 (pi_width pcl_image) ->
  bytes_read pcl_image <= Z.of_nat (length (pi_data pcl_image)) ->
  exists (m : Image) (w' : World),
    toImageMsg ros_time_now pcl_image w = (Returned m, w') /\
    (pi_encoding pcl_image = "CV_8UC3" -> img_encoding m = "bgr8") /\
    (pi_encoding pcl_image <> "CV_8UC3" -> img_encoding m = "mono8") /\
    img_height m = pi_height pcl_image /\
    img_width m = pi_width pcl_image.
Proof.
  intros Hh Hw Hb. eexists _, _. split.
  { rewrite toImageMsg_run. unfold in_bounds.
    apply Z.leb_le in Hb. rewrite Hb. reflexivity. }
  repeat split.
  - intros He. simpl. unfold output_encoding. rewrite He. reflexivity.
  - intros Hne. simpl. unfold output_encoding.
    destruct (String.eqb_spec (pi_encoding pcl_image) "CV_8UC3"); congruence.
  - by apply image_msg_height.
  - by apply image_msg_width.
Qed.

End Conversion.

(** The scenario of the 100x80 three-channel buffer. *)
Lemma C2_witness_100x80_bgr8 :
  exists (m : Image) (w' : World),
    toImageMsg ex_clock (ex_image 80 100 "CV_8UC3" 24000) (ex_world ex_triple)
      = (Returned m, w') /\
    (pi_encoding (ex_image 80 100 "CV_8UC3" 24000) = "CV_8UC3" ->
     img_encoding m = "bgr8") /\
    (pi_encoding (ex_image 80 100 "CV_8UC3" 24000) <> "CV_8UC3" ->
     img_encoding m = "mono8") /\
    img_height m = pi_height (ex_image 80 100 "CV_8UC3" 24000) /\
    img_width m = pi_width (ex_image 80 100 "CV_8UC3" 24000).
Proof.
  apply (C2_toImageMsg_in_bounds_encoding_dimensions ex_clock
           (ex_image 80 100 "CV_8UC3" 24000) (ex_world ex_triple)).
  - unfold is_uint32. cbn. lia.
  - unfold is_uint32. cbn. lia.
  - vm_compute. discriminate.
Defined.

(** A 2x2 colour image with an empty buffer: the copy of its twelve
    bytes reads outside the buffer, and there is no message. *)
Lemma C2_counterexample_empty_buffer :
  is_uint32 (pi_height (ex_image 2 2 "CV_8UC3" 0)) /\
  is_uint32 (pi_width (ex_image 2 2 "CV_8UC3" 0)) /\
  ~ conversion_succeeds (ex_image 2 2 "CV_8UC3" 0)
      (fst (toImageMsg ex_clock (ex_image 2 2 "CV_8UC3" 0) (ex_world ex_triple))).
Proof.
  split; [unfold is_uint32; cbn; lia|]. split; [unfold is_uint32; cbn; lia|].
  intros (m & Hm & _). vm_compute in Hm. discriminate Hm.
Qed.

(** The two buffers of the scenario, evaluated. *)
Example toImageMsg_100x80_color :
  let m := image_msg (ex_image 80 100 "CV_8UC3" 24000) 0 in
  (img_encoding m, img_height m, img_width m, img_step m,
   Z.of_nat (length (img_data m)))
  = ("bgr8", 80, 100, 300, 24000).
Proof. vm_compute. reflexivity. Qed.

Example toImageMsg_100x80_unrecognized :
  let m := image_msg (ex_image 80 100 "BAYER_RGGB8" 8000) 0 in
  (img_encoding m, img_height m, img_width m, img_step m,
   Z.of_nat (length (img_data m)))
  = ("mono8", 80, 100, 100, 8000).
Proof. vm_compute. reflexivity. Qed.

(** ** Reading traces *)

Lemma emitted_app (w w' : World) (evs : list Event) :
  trace w' = trace w ++ evs -> emitted w w' = evs.
Proof. unfold emitted. intros ->. apply drop_app_length. Qed.

Lemma publications_app (tr1 tr2 : list Event) :
  publications (tr1 ++ tr2) = publications tr1 ++ publications tr2.
Proof. apply omap_app. Qed.

Lemma publications_publish_events (ps : list (string * Message)) :
  publications (map publish_event ps) = ps.
Proof.
  induction ps as [|[t m] ps IH]; [reflexivity|].
  cbn. unfold publications in IH. by rewrite IH.
Qed.

Lemma snoc_snoc {A} (l : list A) (a b : A) : (l ++ [a]) ++ [b] = l ++ [a; b].
Proof. by rewrite <- app_assoc. Qed.

(** ** The callback *)

Section Callback.

Variable ensenso : EnsensoGrabber.
Variable ros_time_now : nat -> Time.
Variable arg_order : ArgOrder.

(** A query that raises ends the callback at once: nothing is caught. *)
Lemma grabberCallback_left_raises (self : HandeyeCalibration) (w : World)
    (e : string) :
  left_answer ensenso w = Raised e ->
  grabberCallback ensenso ros_time_now arg_order self w =
    (Thrown e, log (Query "Left") w).
Proof.
  intros Hl. unfold left_answer in Hl.
  unfold grabberCallback, getCameraInfo, bind, ask. cbn.
  rewrite Hl. reflexivity.
Qed.

Lemma grabberCallback_right_raises (self : HandeyeCalibration) (w : World)
    (okl : bool) (li : CameraInfo) (e : string) :
  left_answer ensenso w = Answered (okl, li) ->
  right_answer ensenso w = Raised e ->
  grabberCallback ensenso ros_time_now arg_order self w =
    (Thrown e, log (Query "Right") (log (Query "Left") w)).
Proof.
  intros Hl Hr. unfold left_answer in Hl. unfold right_answer in Hr.
  unfold grabberCallback, getCameraInfo, bind, ask. cbn.
  rewrite Hl. cbn. rewrite snoc_snoc, Hr. unfold log. cbn.
  rewrite ?snoc_snoc. reflexivity.
Qed.

(** A callback whose two intrinsics queries return, whatever they
    report: either the four buffers hold what their conversions read and
    the callback runs to its end, or it stops, outside defined
    behaviour, at the first conversion that runs out of its buffer,
    with the publications made up to there. *)
Lemma grabberCallback_answered (self : HandeyeCalibration) (w : World)
    (okl okr : bool) (li ri : CameraInfo) :
  left_answer ensenso w = Answered (okl, li) ->
  right_answer ensenso w = Answered (okr, ri) ->
  let r := grabberCallback ensenso ros_time_now arg_order self w in
  let pubs := callback_publications ros_time_now arg_order self (frame w)
                                    (clock_reads w) li ri in
  (triple_in_bounds (frame w) = true /\
   r = (Returned tt,
        mkWorld (6 + clock_reads w)
          (trace w ++ [Query "Left"; Query "Right"] ++ map publish_event pubs)
          (mkFrameTriple (cloud_with_frame (cloud (frame w)) (camera_frame_id_ self))
                         (rawimages (frame w)) (rectifiedimages (frame w))))) \/
  (triple_in_bounds (frame w) = false /\
   exists k, (k < 4)%nat /\
     fst r = Undefined /\
     trace (snd r) =
       trace w ++ [Query "Left"; Query "Right"] ++ map publish_event (take k pubs) /\
     frame (snd r) = frame w).
Proof.
  intros Hl Hr. cbv zeta. unfold left_answer in Hl. unfold right_answer in Hr.
  unfold grabberCallback, getCameraInfo, image_and_stamp, bind, ask,
    triple_in_bounds. cbn.
  rewrite Hl. cbn. rewrite snoc_snoc, Hr. cbn.
  destruct (in_bounds (fst (rawimages (frame w)))) eqn:B1.
  2:{ right. split; [reflexivity|]. exists 0%nat. split; [lia|].
      destruct arg_order; cbn; rewrite toImageMsg_run, B1; cbn;
        rewrite ?snoc_snoc; repeat split. }
  destruct (in_bounds (snd (rawimages (frame w)))) eqn:B2.
  2:{ right. split; [reflexivity|]. exists 1%nat. split; [lia|].
      destruct arg_order; cbn; rewrite toImageMsg_run, B1; cbn;
        rewrite toImageMsg_run, B2; cbn;
        unfold emit; cbn; rewrite ?snoc_snoc, <- ?app_assoc; repeat split. }
  destruct (in_bounds (fst (rectifiedimages (frame w)))) eqn:B3.
  2:{ right. split; [reflexivity|]. exists 2%nat. split; [lia|].
      destruct arg_order; cbn; rewrite toImageMsg_run, B1; cbn;
        rewrite toImageMsg_run, B2; cbn; rewrite toImageMsg_run, B3; cbn;
        unfold emit; cbn; rewrite ?snoc_snoc, <- ?app_assoc; repeat split. }
  destruct (in_bounds (snd (rectifiedimages (frame w)))) eqn:B4.
  2:{ right. split; [reflexivity|]. exists 3%nat. split; [lia|].
      destruct arg_order; cbn; rewrite toImageMsg_run, B1; cbn;
        rewrite toImageMsg_run, B2; cbn; rewrite toImageMsg_run, B3; cbn;
        rewrite toImageMsg_run, B4; cbn;
        unfold emit; cbn; rewrite ?snoc_snoc, <- ?app_assoc; repeat split. }
  left. split; [reflexivity|].
  destruct arg_order; cbn; rewrite toImageMsg_run, B1; cbn;
    rewrite toImageMsg_run, B2; cbn; rewrite toImageMsg_run, B3; cbn;
    rewrite toImageMsg_run, B4; cbn;
    unfold cloud_publish, emit; cbn; rewrite ?snoc_snoc, <- ?app_assoc; reflexivity.
Qed.

(** The whole effect of a callback whose queries return and whose
    buffers hold what is read from them. *)
Lemma grabberCallback_run (self : HandeyeCalibration) (w : World)
    (okl okr : bool) (li ri : CameraInfo) :
  left_answer ensenso w = Answered (okl, li) ->
  right_answer ensenso w = Answered (okr, ri) ->
  triple_in_bounds (frame w) = true ->
  grabberCallback ensenso ros_time_now arg_order self w =
  (Returned tt,
   mkWorld (6 + clock_reads w)
     (trace w ++
      [Query "Left"; Query "Right"] ++
      map publish_event
        (callback_publications ros_time_now arg_order self (frame w)
                               (clock_reads w) li ri))
     (mkFrameTriple (cloud_with_frame (cloud (frame w)) (camera_frame_id_ self))
                    (rawimages (frame w)) (rectifiedimages (frame w)))).
Proof.
  intros Hl Hr Hb.
  destruct (grabberCallback_answered self w okl okr li ri Hl Hr)
    as [[_ H]|[Hb' _]]; [exact H|congruence].
Qed.

(** The shape of every callback: it logs one query or both, then makes
    the first k of its five publications; k is 5 exactly when it
    returns, and then the cloud has been labelled; otherwise k is at most
    3 and the borrowed objects are as they were. *)
Lemma grabberCallback_shape (self : HandeyeCalibration) (w : World) :
  let r := grabberCallback ensenso ros_time_now arg_order self w in
  exists qs k li ri,
    trace (snd r) =
      trace w ++ qs ++
      map publish_event
          (take k (callback_publications ros_time_now arg_order self (frame w)
                                         (clock_reads w) li ri)) /\
    (qs = [Query "Left"] \/ qs = [Query "Left"; Query "Right"]) /\
    ((k = 5%nat /\ fst r = Returned tt /\
      frame (snd r) =
        mkFrameTriple (cloud_with_frame (cloud (frame w)) (camera_frame_id_ self))
                      (rawimages (frame w)) (rectifiedimages (frame w))) \/
     ((k < 4)%nat /\ fst r <> Returned tt /\ frame (snd r) = frame w)).
Proof.
  cbv zeta.
  destruct (left_answer ensenso w) as [[okl li]|e] eqn:Hl.
  - destruct (right_answer ensenso w) as [[okr ri]|e] eqn:Hr.
    + destruct (grabberCallback_answered self w okl okr li ri Hl Hr)
        as [[_ H]|[_ (k & Hk & Hu & Ht & Hf)]].
      * rewrite H. exists [Query "Left"; Query "Right"], 5%nat, li, ri.
        split; [reflexivity|]. split; [auto|]. left. auto.
      * exists [Query "Left"; Query "Right"], k, li, ri.
        split; [exact Ht|]. split; [auto|]. right.
        split; [exact Hk|]. split; [rewrite Hu; discriminate|exact Hf].
    + rewrite (grabberCallback_right_raises self w okl li e Hl Hr).
      exists [Query "Left"; Query "Right"], 0%nat, CameraInfo_default, CameraInfo_default.
      split; [unfold log; cbn; rewrite snoc_snoc; reflexivity|].
      split; [auto|]. right. split; [lia|]. split; [discriminate|reflexivity].
  - rewrite (grabberCallback_left_raises self w e Hl).
    exists [Query "Left"], 0%nat, CameraInfo_default, CameraInfo_default.
    split; [reflexivity|].
    split; [auto|]. right. split; [lia|]. split; [discriminate|reflexivity].
Qed.

(** The publications of a callback, read off its trace. *)
Lemma grabberCallback_publications_prefix (self : HandeyeCalibration) (w : World) :
  let r := grabberCallback ensenso ros_time_now arg_order self w in
  exists k li ri,
    publications (emitted w (snd r)) =
      take k (callback_publications ros_time_now arg_order self (frame w)
                                    (clock_reads w) li ri) /\
    ((k = 5%nat /\ fst r = Returned tt) \/ ((k < 4)%nat /\ fst r <> Returned tt)).
Proof.
  cbv zeta.
  destruct (grabberCallback_shape self w) as (qs & k & li & ri & Ht & Hq & Hk).
  exists k, li, ri. split.
  - rewrite (emitted_app _ _ _ Ht), publications_app, publications_publish_events.
    destruct Hq as [-> | ->]; reflexivity.
  - destruct Hk as [(-> & Hr & _)|(Hk & Hr & _)]; auto.
Qed.

Lemma grabberCallback_publications (self : HandeyeCalibration) (w : World)
    (okl okr : bool) (li ri : CameraInfo) :
  left_answer ensenso w = Answered (okl, li) ->
  right_answer ensenso w = Answered (okr, ri) ->
  triple_in_bounds (frame w) = true ->
  publications (emitted w (snd (grabberCallback ensenso ros_time_now arg_order self w))) =
    callback_publications ros_time_now arg_order self (frame w)
                          (clock_reads w) li ri.
Proof.
  intros Hl Hr Hb.
  rewrite (grabberCallback_run self w okl okr li ri Hl Hr Hb). cbn [snd].
  erewrite emitted_app by reflexivity.
  rewrite publications_app. apply publications_publish_events.
Qed.

(** The first k publications carry the first 0, 2, 4, 5 or 7 artifacts. *)
Lemma artifacts_of_prefix (self : HandeyeCalibration) (f : FrameTriple)
    (c k : nat) (li ri : CameraInfo) :
  (k = 5 \/ k < 4)%nat ->
  exists n, In n artifact_counts /\
    flat_map artifacts_of
      (take k (callback_publications ros_time_now arg_order self f c li ri)) =
    take n (flat_map artifacts_of
              (callback_publications ros_time_now arg_order self f c li ri)).
Proof.
  intros Hk. unfold artifact_counts.
  destruct k as [|[|[|[|[|[|k]]]]]]; try lia.
  - exists 0%nat. split; [cbn; tauto|reflexivity].
  - exists 2%nat. split; [cbn; tauto|reflexivity].
  - exists 4%nat. split; [cbn; tauto|reflexivity].
  - exists 5%nat. split; [cbn; tauto|reflexivity].
  - exists 7%nat. split; [cbn; tauto|reflexivity].
Qed.

Lemma callback_artifacts_prefix (self : HandeyeCalibration) (w : World) :
  exists n li ri, In n artifact_counts /\
    artifacts (emitted w (snd (grabberCallback ensenso ros_time_now arg_order self w))) =
    take n (flat_map artifacts_of
              (callback_publications ros_time_now arg_order self (frame w)
                                     (clock_reads w) li ri)).
Proof.
  destruct (grabberCallback_publications_prefix self w) as (k & li & ri & Hp & Hk).
  destruct (artifacts_of_prefix self (frame w) (clock_reads w) k li ri)
    as (n & Hn & Ha).
  { destruct Hk as [[-> _]|[Hk _]]; auto. }
  exists n, li, ri. split; [exact Hn|].
  unfold artifacts. rewrite Hp. exact Ha.
Qed.

(** The timestamps of the seven artifacts of a callback, and of those
    among them that were sent when it stopped earlier. *)
Lemma callback_stamps_prefix (self : HandeyeCalibration) (w : World) :
  exists n, In n artifact_counts /\
    map a_stamp
        (artifacts (emitted w (snd (grabberCallback ensenso ros_time_now arg_order self w)))) =
    take n
      [ ros_time_now (stamp_read arg_order (clock_reads w));
        ros_time_now (stamp_read arg_order (clock_reads w));
        ros_time_now (stamp_read arg_order (2 + clock_reads w));
        ros_time_now (stamp_read arg_order (2 + clock_reads w));
        ros_time_now (4 + clock_reads w)%nat;
        ros_time_now (5 + clock_reads w)%nat;
        fromPCL_stamp (pcl_stamp (pc_header (cloud (frame w)))) ].
Proof.
  destruct (callback_artifacts_prefix self w) as (n & li & ri & Hn & Ha).
  exists n. split; [exact Hn|]. rewrite Ha.
  rewrite <- firstn_map. reflexivity.
Qed.

Lemma callback_stamps (self : HandeyeCalibration) (w : World)
    (okl okr : bool) (li ri : CameraInfo) :
  left_answer ensenso w = Answered (okl, li) ->
  right_answer ensenso w = Answered (okr, ri) ->
  triple_in_bounds (frame w) = true ->
  map a_stamp (artifacts (emitted w (snd (grabberCallback ensenso ros_time_now arg_order self w)))) =
    [ ros_time_now (stamp_read arg_order (clock_reads w));
      ros_time_now (stamp_read arg_order (clock_reads w));
      ros_time_now (stamp_read arg_order (2 + clock_reads w));
      ros_time_now (stamp_read arg_order (2 + clock_reads w));
      ros_time_now (4 + clock_reads w)%nat;
      ros_time_now (5 + clock_reads w)%nat;
      fromPCL_stamp (pcl_stamp (pc_header (cloud (frame w)))) ].
Proof.
  intros Hl Hr Hb. unfold artifacts.
  rewrite (grabberCallback_publications self w okl okr li ri Hl Hr Hb).
  reflexivity.
Qed.

(** The labels of the seven artifacts of a callback: the images carry
    the label [toImageMsg] writes, the intrinsics records and the cloud
    the configured one. *)
Lemma callback_frame_labels (self : HandeyeCalibration) (w : World)
    (okl okr : bool) (li ri : CameraInfo) :
  left_answer ensenso w = Answered (okl, li) ->
  right_answer ensenso w = Answered (okr, ri) ->
  triple_in_bounds (frame w) = true ->
  map a_frame (artifacts (emitted w (snd (grabberCallback ensenso ros_time_now arg_order self w)))) =
    [ "world"; camera_frame_id_ self; "world"; camera_frame_id_ self;
      "world"; "world"; camera_frame_id_ self ].
Proof.
  intros Hl Hr Hb. unfold artifacts.
  rewrite (grabberCallback_publications self w okl okr li ri Hl Hr Hb).
  reflexivity.
Qed.

End Callback.

Lemma quiet_publish_events (ps : list (string * Message)) :
  driver_calls (map publish_event ps) = [] /\
  filter is_advertise (map publish_event ps) = [] /\
  warnings (map publish_event ps) = [].
Proof.
  induction ps as [|p ps (IH1 & IH2 & IH3)]; [repeat split|].
  repeat split; cbn; assumption.
Qed.

Section CallbackClaims.

Variable ensenso : EnsensoGrabber.
Variable ros_time_now : nat -> Time.
Variable arg_order : ArgOrder.

(** C8, as the code has it. What a callback publishes is an initial part
    of the fixed order (left raw image with its intrinsics, right raw
    image with its intrinsics, left rectified image, right rectified
    image, point cloud) that never separates an image from its
    intrinsics; it is the whole sequence, five messages, when both
    intrinsics queries return and the four image buffers hold the bytes
    their conversions read. *)
Theorem C8_emission_order_initial_part (self : HandeyeCalibration) (w : World) :
  let evs := emitted w (snd (grabberCallback ensenso ros_time_now arg_order self w)) in
  (exists n, In n artifact_counts /\
             artifact_order evs = take n (emission_order self)) /\
  (forall okl okr li ri,
     left_answer ensenso w = Answered (okl, li) ->
     right_answer ensenso w = Answered (okr, ri) ->
     triple_in_bounds (frame w) = true ->
     publications evs =
       callback_publications ros_time_now arg_order self (frame w)
                             (clock_reads w) li ri /\
     artifact_order evs = emission_order self).
Proof.
  cbv zeta. split.
  - destruct (callback_artifacts_prefix ensenso ros_time_now arg_order self w)
      as (n & li & ri & Hn & Ha).
    exists n. split; [exact Hn|].
    unfold artifact_order. rewrite Ha, <- firstn_map. reflexivity.
  - intros okl okr li ri Hl Hr Hb.
    pose proof (grabberCallback_publications ensenso ros_time_now arg_order self w okl okr li ri Hl Hr Hb)
      as Hp.
    split; [exact Hp|].
    unfold artifact_order, artifacts. rewrite Hp. reflexivity.
Qed.

(** C3, as the code has it. When both intrinsics queries return and at
    least one of them reports failure through its result (the image
    buffers holding the bytes their conversions read), the callback
    returns normally and drops nothing: all five channels get their
    message in the usual order and each raw image goes out paired with
    the record its query left. When a query raises, the callback raises
    the same exception to its caller and publishes nothing. *)
Theorem C3_reported_failure_drops_nothing (self : HandeyeCalibration) (w : World) :
  let r := grabberCallback ensenso ros_time_now arg_order self w in
  let pubs := publications (emitted w (snd r)) in
  (forall okl okr li ri,
     left_answer ensenso w = Answered (okl, li) ->
     right_answer ensenso w = Answered (okr, ri) ->
     okl = false \/ okr = false ->
     triple_in_bounds (frame w) = true ->
     fst r = Returned tt /\
     map fst pubs = node_topics self /\
     (exists image, In (pub_topic (l_raw_pub_ self),
                        MsgCamera image (info_msg li (camera_frame_id_ self)
                                                  (stamp (img_header image)))) pubs) /\
     (exists image, In (pub_topic (r_raw_pub_ self),
                        MsgCamera image (info_msg ri (camera_frame_id_ self)
                                                  (stamp (img_header image)))) pubs)) /\
  (forall e,
     left_answer ensenso w = Raised e \/
     ((exists okl li, left_answer ensenso w = Answered (okl, li)) /\
      right_answer ensenso w = Raised e) ->
     fst r = Thrown e /\ pubs = []).
Proof.
  cbv zeta. split.
  - intros okl okr li ri Hl Hr _ Hb.
    rewrite (grabberCallback_publications ensenso ros_time_now arg_order self w okl okr li ri Hl Hr Hb).
    rewrite (grabberCallback_run ensenso ros_time_now arg_order self w okl okr li ri Hl Hr Hb).
    split; [reflexivity|]. split; [reflexivity|]. split.
    + exists (image_msg (fst (rawimages (frame w)))
                        (ros_time_now (stamp_read arg_order (clock_reads w)))).
      left. reflexivity.
    + exists (image_msg (snd (rawimages (frame w)))
                        (ros_time_now (stamp_read arg_order (2 + clock_reads w)))).
      right. left. reflexivity.
  - intros e [Hl|[(okl & li & Hl) Hr]].
    + rewrite (grabberCallback_left_raises ensenso ros_time_now arg_order self w e Hl).
      split; [reflexivity|].
      unfold emitted, log. cbn. rewrite drop_app_length. reflexivity.
    + rewrite (grabberCallback_right_raises ensenso ros_time_now arg_order self w okl li e Hl Hr).
      split; [reflexivity|].
      unfold emitted, log. cbn. rewrite <- app_assoc, drop_app_length. reflexivity.
Qed.

(** C5, as the code has it. A raw image and the intrinsics record sent
    with it carry one and the same timestamp, the clock reading passed
    to that publication; the left pair, the right pair and each
    rectified image are stamped by clock readings of their own, taken
    in this order, and the point cloud keeps the stamp the driver gave
    it. These are the stamps of all seven artifacts when the buffers
    hold what is read from them, and of the artifacts that were sent
    when a conversion stopped the callback earlier. *)
Theorem C5_stamps_per_publication (self : HandeyeCalibration) (w : World)
    (okl okr : bool) (li ri : CameraInfo) :
  left_answer ensenso w = Answered (okl, li) ->
  right_answer ensenso w = Answered (okr, ri) ->
  let k := clock_reads w in
  let tl := ros_time_now (stamp_read arg_order k) in
  let tr := ros_time_now (stamp_read arg_order (2 + k)) in
  let all := [ tl; tl; tr; tr; ros_time_now (4 + k)%nat; ros_time_now (5 + k)%nat;
               fromPCL_stamp (pcl_stamp (pc_header (cloud (frame w)))) ] in
  let stamps :=
    map a_stamp
        (artifacts (emitted w (snd (grabberCallback ensenso ros_time_now arg_order self w)))) in
  (triple_in_bounds (frame w) = true -> stamps = all) /\
  (exists n, In n artifact_counts /\ stamps = take n all).
Proof.
  intros Hl Hr k tl tr all stamps. split.
  - intros Hb. exact (callback_stamps ensenso ros_time_now arg_order self w okl okr li ri Hl Hr Hb).
  - exact (callback_stamps_prefix ensenso ros_time_now arg_order self w).
Qed.

(** C10. Of the objects the callback borrows, only the frame label of
    the cloud's header is ever written: both image pairs are left as
    they were, the cloud keeps its points and every other field, the
    cloud that is published is the borrowed one with the configured
    label, and the conversion leaves all borrowed objects alone. *)
Theorem C10_only_the_cloud_label_is_written (self : HandeyeCalibration)
    (w : World) :
  let w' := snd (grabberCallback ensenso ros_time_now arg_order self w) in
  rawimages (frame w') = rawimages (frame w) /\
  rectifiedimages (frame w') = rectifiedimages (frame w) /\
  cloud_payload (cloud (frame w')) = cloud_payload (cloud (frame w)) /\
  (cloud (frame w') = cloud (frame w) \/
   cloud (frame w') = cloud_with_frame (cloud (frame w)) (camera_frame_id_ self)) /\
  (fst (grabberCallback ensenso ros_time_now arg_order self w) = Returned tt ->
   cloud (frame w') = cloud_with_frame (cloud (frame w)) (camera_frame_id_ self)) /\
  (forall t c, In (t, MsgCloud c) (publications (emitted w w')) ->
               c = cloud_with_frame (cloud (frame w)) (camera_frame_id_ self)) /\
  (forall pcl_image w0,
      frame (snd (toImageMsg ros_time_now pcl_image w0)) = frame w0).
Proof.
  intros w'. subst w'.
  assert (Hconv : forall pcl_image w0,
             frame (snd (toImageMsg ros_time_now pcl_image w0)) = frame w0).
  { intros p w0. rewrite toImageMsg_run. reflexivity. }
  destruct (grabberCallback_shape ensenso ros_time_now arg_order self w)
    as (qs & k & li & ri & Ht & Hq & Hk).
  cbv zeta in Ht, Hk.
  assert (Hp : publications
                 (emitted w (snd (grabberCallback ensenso ros_time_now arg_order self w))) =
               take k (callback_publications ros_time_now arg_order self (frame w)
                                             (clock_reads w) li ri)).
  { rewrite (emitted_app _ _ _ Ht), publications_app, publications_publish_events.
    destruct Hq as [-> | ->]; reflexivity. }
  rewrite Hp.
  destruct Hk as [(-> & Hr & Hf)|(Hk & Hr & Hf)]; rewrite Hf; cbn [frame rawimages
    rectifiedimages cloud].
  - repeat split; auto.
    intros t c H. cbn in H.
    repeat (destruct H as [H|H]; [congruence|]). destruct H.
  - repeat split; auto; try (intros; contradiction).
    intros t c H.
    destruct k as [|[|[|[|k]]]]; try lia; cbn in H;
      repeat (destruct H as [H|H]; [congruence|]); destruct H.
Qed.

(** X3. With a clock that never runs backwards, the timestamps of one
    callback follow the order of emission, for either order of argument
    evaluation: left raw pair, then right raw pair, then left rectified,
    then right rectified image. *)
Theorem X3_stamps_follow_emission_order (self : HandeyeCalibration) (w : World)
    (okl okr : bool) (li ri : CameraInfo) :
  monotone_clock ros_time_now ->
  left_answer ensenso w = Answered (okl, li) ->
  right_answer ensenso w = Answered (okr, ri) ->
  exists tl tr t3 t4 tc,
    let stamps :=
      map a_stamp
          (artifacts (emitted w (snd (grabberCallback ensenso ros_time_now arg_order self w)))) in
    (triple_in_bounds (frame w) = true -> stamps = [tl; tl; tr; tr; t3; t4; tc]) /\
    (exists n, In n artifact_counts /\ stamps = take n [tl; tl; tr; tr; t3; t4; tc]) /\
    tl <= tr /\ tr <= t3 /\ t3 <= t4.
Proof.
  intros Hmono Hl Hr.
  eexists _, _, _, _, _. cbv zeta. split; [|split].
  - intros Hb. exact (callback_stamps ensenso ros_time_now arg_order self w okl okr li ri Hl Hr Hb).
  - exact (callback_stamps_prefix ensenso ros_time_now arg_order self w).
  - repeat split; apply Hmono; destruct arg_order; cbn; lia.
Qed.

(** X4. On a triple whose four image buffers hold the bytes their
    conversions read, a callback publishes all five messages or none:
    either it returns and one message went out on each of the five
    publishers, in the order of the fields, or a query raised, it raises
    and nothing was published. *)
Theorem X4_callback_publishes_all_or_nothing (self : HandeyeCalibration) (w : World) :
  triple_in_bounds (frame w) = true ->
  let r := grabberCallback ensenso ros_time_now arg_order self w in
  (fst r = Returned tt /\
   map fst (publications (emitted w (snd r))) = node_topics self) \/
  ((exists e, fst r = Thrown e) /\
   publications (emitted w (snd r)) = []).
Proof.
  intros Hb. cbv zeta.
  destruct (left_answer ensenso w) as [[okl li]|e] eqn:Hl.
  - destruct (right_answer ensenso w) as [[okr ri]|e] eqn:Hr.
    + left.
      rewrite (grabberCallback_publications ensenso ros_time_now arg_order self w okl okr li ri Hl Hr Hb).
      rewrite (grabberCallback_run ensenso ros_time_now arg_order self w okl okr li ri Hl Hr Hb).
      split; reflexivity.
    + right. rewrite (grabberCallback_right_raises ensenso ros_time_now arg_order self w okl li e Hl Hr).
      split; [by exists e|].
      unfold emitted, log. cbn. rewrite <- app_assoc, drop_app_length. reflexivity.
  - right. rewrite (grabberCallback_left_raises ensenso ros_time_now arg_order self w e Hl).
    split; [by exists e|].
    unfold emitted, log. cbn. rewrite drop_app_length. reflexivity.
Qed.

(** X5. When the intrinsics query for the left eye raises, the callback
    raises the same exception at once: the right eye is not queried,
    the clock is not read, nothing is published and the borrowed objects
    are as they were. *)
Theorem X5_left_query_exception_passes_through (self : HandeyeCalibration)
    (w : World) (e : string) :
  left_answer ensenso w = Raised e ->
  let r := grabberCallback ensenso ros_time_now arg_order self w in
  fst r = Thrown e /\
  emitted w (snd r) = [Query "Left"] /\
  clock_reads (snd r) = clock_reads w /\
  frame (snd r) = frame w.
Proof.
  intros Hl. cbv zeta.
  rewrite (grabberCallback_left_raises ensenso ros_time_now arg_order self w e Hl).
  repeat split. unfold emitted. cbn. apply drop_app_length.
Qed.

(** X6. The callback does not control the device and does not touch the
    set of topics: whatever the grabber answers, the events it adds are
    the two intrinsics queries and publications, never a driver call, an
    advertisement or a warning. *)
Theorem X6_callback_only_queries_and_publishes (self : HandeyeCalibration)
    (w : World) :
  let evs := emitted w (snd (grabberCallback ensenso ros_time_now arg_order self w)) in
  driver_calls evs = [] /\
  filter is_advertise evs = [] /\
  warnings evs = [].
Proof.
  cbv zeta.
  destruct (grabberCallback_shape ensenso ros_time_now arg_order self w)
    as (qs & k & li & ri & Ht & Hq & _).
  cbv zeta in Ht. rewrite (emitted_app _ _ _ Ht).
  match goal with |- context [map publish_event ?l] =>
    destruct (quiet_publish_events l) as (H1 & H2 & H3) end.
  unfold driver_calls, warnings in *.
  rewrite !omap_app, filter_app, H1, H2, H3.
  destruct Hq as [-> | ->]; repeat split.
Qed.

End CallbackClaims.

(** ** The callback on concrete deliveries *)

Lemma C8_witness_emission_order :
  let evs := emitted (ex_world ex_triple)
               (snd (grabberCallback ex_grabber ex_clock LeftToRight ex_node
                                     (ex_world ex_triple))) in
  publications evs =
    callback_publications ex_clock LeftToRight ex_node ex_triple 0
      (ex_info "Left" CameraInfo_default) (ex_info "Right" CameraInfo_default) /\
  artifact_order evs = emission_order ex_node.
Proof.
  exact (proj2 (C8_emission_order_initial_part ex_grabber ex_clock LeftToRight
                  ex_node (ex_world ex_triple))
           true true
           (ex_info "Left" CameraInfo_default)
           (ex_info "Right" CameraInfo_default) eq_refl eq_refl eq_refl).
Defined.

(** The left query raises: the callback emits no artifact at all. *)
Lemma C8_counterexample_nothing_emitted :
  artifact_order
    (emitted (ex_world ex_triple)
       (snd (grabberCallback ex_grabber_left_throws ex_clock LeftToRight ex_node
                             (ex_world ex_triple))))
  <> emission_order ex_node.
Proof. vm_compute. discriminate. Qed.

(** The left query reports failure, and the left raw image goes out all
    the same. *)
Lemma C3_counterexample_left_raw_not_dropped :
  query_fails ex_grabber_left_fails [Query "Left"] "Left" /\
  ~ left_failure_isolated ex_node
      (fst (grabberCallback ex_grabber_left_fails ex_clock LeftToRight ex_node
                            (ex_world ex_triple)))
      (emitted (ex_world ex_triple)
         (snd (grabberCallback ex_grabber_left_fails ex_clock LeftToRight ex_node
                               (ex_world ex_triple)))).
Proof.
  split; [exact I|].
  intros (_ & Hdropped & _). apply Hdropped.
  vm_compute. left. reflexivity.
Qed.

(** The left query raises, and the callback lets the exception through
    before anything is published. *)
Example left_query_raises_nothing_published :
  let r := grabberCallback ex_grabber_left_throws ex_clock LeftToRight ex_node
                           (ex_world ex_triple) in
  fst r = Thrown "NxLibException" /\
  publications (trace (snd r)) = [] /\
  frame (snd r) = ex_triple.
Proof. vm_compute. repeat split. Qed.

(** The right rectified image is two bytes short: three messages are
    out when its conversion leaves defined behaviour, the cloud is
    not among them. *)
Example short_buffer_cuts_the_callback :
  let r := grabberCallback ex_grabber ex_clock LeftToRight ex_node
                           (ex_world ex_triple_cut) in
  fst r = Undefined /\
  map fst (publications (trace (snd r))) =
    ["left/image_raw"; "right/image_raw"; "left/image_rect"] /\
  frame (snd r) = ex_triple_cut.
Proof. vm_compute. repeat split. Qed.

(** The device answers differently from one delivery to the next: the
    first callback raises at its first query, the second one publishes
    its five messages. *)
Example answers_change_between_deliveries :
  let w := deliver_all ex_grabber_warming_up ex_clock LeftToRight ex_node
                       [ex_triple; ex_triple] (ex_world ex_triple) in
  map fst (publications (trace w)) = node_topics ex_node /\
  frame w <> ex_triple.
Proof. vm_compute. split; [reflexivity|discriminate]. Qed.

Lemma C3_witness_left_reports_failure :
  let c := grabberCallback ex_grabber_left_fails ex_clock LeftToRight ex_node
                           (ex_world ex_triple) in
  let pubs := publications (emitted (ex_world ex_triple) (snd c)) in
  fst c = Returned tt /\
  map fst pubs = node_topics ex_node /\
  (exists image, In ("left/image_raw",
                     MsgCamera image (info_msg CameraInfo_default
                                               "ensenso_optical_frame"
                                               (stamp (img_header image)))) pubs) /\
  (exists image, In ("right/image_raw",
                     MsgCamera image (info_msg (ex_info "Right" CameraInfo_default)
                                               "ensenso_optical_frame"
                                               (stamp (img_header image)))) pubs).
Proof.
  exact (proj1 (C3_reported_failure_drops_nothing ex_grabber_left_fails ex_clock
                  LeftToRight ex_node (ex_world ex_triple))
           false true
           CameraInfo_default (ex_info "Right" CameraInfo_default)
           eq_refl eq_refl (or_introl eq_refl) eq_refl).
Defined.

Lemma same_capture_instant_stamps (arts : list Artifact) (s t : Time) :
  same_capture_instant arts ->
  In s (map a_stamp arts) -> In t (map a_stamp arts) -> s = t.
Proof.
  intros H Hs Ht.
  apply in_map_iff in Hs as (a & <- & Ha).
  apply in_map_iff in Ht as (b & <- & Hb).
  by apply H.
Qed.

(** With a clock that advances between two reads, the right raw image is
    stamped later than the left one. *)
Lemma C5_counterexample_stamps_differ :
  ~ same_capture_instant
      (artifacts
         (emitted (ex_world ex_triple)
            (snd (grabberCallback ex_grabber ex_clock LeftToRight ex_node
                                  (ex_world ex_triple))))).
Proof.
  intros H.
  pose proof (callback_stamps ex_grabber ex_clock LeftToRight ex_node
                (ex_world ex_triple) true true _ _ eq_refl eq_refl eq_refl) as Hs.
  assert (Heq : ex_clock (stamp_read LeftToRight 0) =
                ex_clock (stamp_read LeftToRight 2)).
  { apply (same_capture_instant_stamps _ _ _ H); rewrite Hs; cbn; auto. }
  vm_compute in Heq. discriminate Heq.
Qed.

Lemma C5_witness_stamps :
  let all := [ ex_clock 0; ex_clock 0; ex_clock 2; ex_clock 2; ex_clock 4;
               ex_clock 5; fromPCL_stamp 1700000000000000 ] in
  let stamps :=
    map a_stamp
      (artifacts
         (emitted (ex_world ex_triple)
            (snd (grabberCallback ex_grabber ex_clock RightToLeft ex_node
                                  (ex_world ex_triple))))) in
  (triple_in_bounds (frame (ex_world ex_triple)) = true -> stamps = all) /\
  (exists n, In n artifact_counts /\ stamps = take n all).
Proof.
  exact (C5_stamps_per_publication ex_grabber ex_clock RightToLeft ex_node
           (ex_world ex_triple) true true
           (ex_info "Left" CameraInfo_default)
           (ex_info "Right" CameraInfo_default) eq_refl eq_refl).
Defined.

Lemma all_labelled_frames (f : string) (arts : list Artifact) (s : string) :
  all_labelled f arts -> In s (map a_frame arts) -> s = f.
Proof.
  intros H Hs. apply in_map_iff in Hs as (a & <- & Ha). by apply H.
Qed.

(** C1, on the code. With the default label configured, the four images
    of a delivery go out labelled "world", the label [toImageMsg] writes,
    while the two intrinsics records and the cloud carry the configured
    "ensenso_optical_frame": the artifacts of one triple do not share the
    configured label. *)
Theorem C1_images_carry_world_not_configured_label :
  let arts := artifacts
                (emitted (ex_world ex_triple)
                   (snd (grabberCallback ex_grabber ex_clock LeftToRight ex_node
                                         (ex_world ex_triple)))) in
  camera_frame_id_ ex_node = "ensenso_optical_frame" /\
  map (fun a => (a_kind a, a_frame a)) arts =
    [ (RawImage, "world"); (Intrinsics, "ensenso_optical_frame");
      (RawImage, "world"); (Intrinsics, "ensenso_optical_frame");
      (RectifiedImage, "world"); (RectifiedImage, "world");
      (Cloud, "ensenso_optical_frame") ] /\
  (all_labelled (camera_frame_id_ ex_node) arts -> False).
Proof.
  cbv zeta. split; [reflexivity|]. split; [vm_compute; reflexivity|].
  intros H.
  assert (Heq : "world" = "ensenso_optical_frame").
  { apply (all_labelled_frames _ _ "world" H).
    rewrite (callback_frame_labels ex_grabber ex_clock LeftToRight ex_node
               (ex_world ex_triple) true true _ _ eq_refl eq_refl eq_refl).
    left. reflexivity. }
  discriminate Heq.
Qed.

Lemma ex_clock_monotone : monotone_clock ex_clock.
Proof. intros i j Hij. unfold ex_clock. lia. Qed.

Lemma X3_witness_monotone_clock :
  exists tl tr t3 t4 tc,
    let stamps :=
      map a_stamp
          (artifacts (emitted (ex_world ex_triple)
             (snd (grabberCallback ex_grabber ex_clock RightToLeft ex_node
                                   (ex_world ex_triple))))) in
    (triple_in_bounds (frame (ex_world ex_triple)) = true ->
     stamps = [tl; tl; tr; tr; t3; t4; tc]) /\
    (exists n, In n artifact_counts /\ stamps = take n [tl; tl; tr; tr; t3; t4; tc]) /\
    tl <= tr /\ tr <= t3 /\ t3 <= t4.
Proof.
  exact (X3_stamps_follow_emission_order ex_grabber ex_clock RightToLeft ex_node
           (ex_world ex_triple) true true
           (ex_info "Left" CameraInfo_default) (ex_info "Right" CameraInfo_default)
           ex_clock_monotone eq_refl eq_refl).
Defined.

Lemma X4_witness_all_five :
  let r := grabberCallback ex_grabber ex_clock LeftToRight ex_node
                           (ex_world ex_triple) in
  (fst r = Returned tt /\
   map fst (publications (emitted (ex_world ex_triple) (snd r))) = node_topics ex_node) \/
  ((exists e, fst r = Thrown e) /\
   publications (emitted (ex_world ex_triple) (snd r)) = []).
Proof.
  exact (X4_callback_publishes_all_or_nothing ex_grabber ex_clock LeftToRight
           ex_node (ex_world ex_triple) eq_refl).
Defined.

Lemma X5_witness_left_query_raises :
  let r := grabberCallback ex_grabber_left_throws ex_clock LeftToRight ex_node
                           (ex_world ex_triple) in
  fst r = Thrown "NxLibException" /\
  emitted (ex_world ex_triple) (snd r) = [Query "Left"] /\
  clock_reads (snd r) = clock_reads (ex_world ex_triple) /\
  frame (snd r) = frame (ex_world ex_triple).
Proof.
  exact (X5_left_query_exception_passes_through ex_grabber_left_throws ex_clock
           LeftToRight ex_node (ex_world ex_triple) "NxLibException" eq_refl).
Defined.

(** ** Start-up and teardown *)

Lemma read_parameters_run (ps : gmap string XmlRpcValue) (w : World) :
  read_parameters ps w =
  (Returned (parameters_of ps),
   mkWorld (clock_reads w) (trace w ++ parameter_warnings ps) (frame w)).
Proof.
  unfold read_parameters, parameter_warnings, missing_warning, bind, when.
  destruct w as [k tr f].
  destruct (hasParam ps "serial_no"), (hasParam ps "camera_frame_id"),
    (hasParam ps "front_light"), (hasParam ps "projector");
    cbn; rewrite <- ?app_assoc, ?app_nil_r; reflexivity.
Qed.

Lemma advertise_topics_run (p : Parameters) (w : World) :
  advertise_topics p w =
  (Returned (node_of p),
   mkWorld (clock_reads w) (trace w ++ advertised) (frame w)).
Proof.
  unfold advertise_topics, bind. cbn. rewrite <- ?app_assoc. reflexivity.
Qed.

Lemma hasParam_None (ps : gmap string XmlRpcValue) (key : string) :
  ps !! key = None -> hasParam ps key = false.
Proof. unfold hasParam. by intros ->. Qed.

Lemma param_string_None (ps : gmap string XmlRpcValue) (key d : string) :
  ps !! key = None -> param_string ps key d = d.
Proof. unfold param_string. by intros ->. Qed.

Lemma param_bool_None (ps : gmap string XmlRpcValue) (key : string) (d : bool) :
  ps !! key = None -> param_bool ps key d = d.
Proof. unfold param_bool. by intros ->. Qed.

Lemma warnings_app (tr1 tr2 : list Event) :
  warnings (tr1 ++ tr2) = warnings tr1 ++ warnings tr2.
Proof. apply omap_app. Qed.

(** C7. Whichever of the four options is absent from the parameter
    server, reading the parameters returns (it cannot raise), the option
    has its documented default and a warning naming the option and the
    default is emitted; an absent frame label gives
    "ensenso_optical_frame". *)
Theorem C7_absent_option_default_and_warning
    (ps : gmap string XmlRpcValue) (o : ConfigOption) (w : World) :
  ps !! option_key o = None ->
  exists (p : Parameters) (w' : World),
    read_parameters ps w = (Returned p, w') /\
    option_value p o = documented_default o /\
    In (default_warning o) (warnings (emitted w w')) /\
    (o = CameraFrameId -> camera_frame_id p = "ensenso_optical_frame").
Proof.
  intros Habsent.
  eexists _, _. split; [apply read_parameters_run|].
  erewrite emitted_app by reflexivity.
  unfold parameter_warnings, missing_warning.
  rewrite !warnings_app.
  destruct o; cbn in Habsent; cbn [option_value documented_default parameters_of
    serial_no camera_frame_id front_light projector];
    rewrite ?(param_string_None _ _ _ Habsent), ?(param_bool_None _ _ _ Habsent),
      (hasParam_None _ _ Habsent);
    (split; [reflexivity|]); (split; [|intros; try discriminate; reflexivity]);
    rewrite !in_app_iff; cbn; auto 10.
Qed.

Lemma C7_witness_empty_parameter_server :
  exists (p : Parameters) (w' : World),
    read_parameters (∅ : gmap string XmlRpcValue) (ex_world ex_triple)
      = (Returned p, w') /\
    option_value p CameraFrameId = documented_default CameraFrameId /\
    In (default_warning CameraFrameId)
       (warnings (emitted (ex_world ex_triple) w')) /\
    (CameraFrameId = CameraFrameId -> camera_frame_id p = "ensenso_optical_frame").
Proof.
  exact (C7_absent_option_default_and_warning ∅ CameraFrameId
           (ex_world ex_triple) eq_refl).
Defined.

Section Lifecycle.

Variable ensenso : EnsensoGrabber.
Variable cxx : Standard.

Lemma driver_run (c : DriverCall) (w : World) :
  driver ensenso c w =
  (outcome_of (grabber_call ensenso (trace w ++ [Driver c]) c), log (Driver c) w).
Proof. reflexivity. Qed.

(** A driver call that returns lets the code after it run. *)
Lemma driver_then {A} (c : DriverCall) (b : bool) (k : bool -> M A) (w : World) :
  grabber_call ensenso (trace w ++ [Driver c]) c = Answered b ->
  bind (driver ensenso c) k w = k b (log (Driver c) w).
Proof. intros H. unfold bind. rewrite driver_run, H. reflexivity. Qed.

Lemma driver_raises {A} (c : DriverCall) (e : string) (k : bool -> M A) (w : World) :
  grabber_call ensenso (trace w ++ [Driver c]) c = Raised e ->
  bind (driver ensenso c) k w = (Thrown e, log (Driver c) w).
Proof. intros H. unfold bind. rewrite driver_run, H. reflexivity. Qed.

(** The driver calls of the start-up sequence stop at the first one
    that raises. *)
Lemma initialize_ensenso_prefix (p : Parameters) (w : World) :
  exists cs,
    trace (snd (initialize_ensenso ensenso p w)) = trace w ++ map Driver cs /\
    cs `prefix_of` startup_calls p /\
    ((fst (initialize_ensenso ensenso p w) = Returned tt /\ cs = startup_calls p) \/
     (exists c e, last cs = Some c /\
                  grabber_call ensenso (trace w ++ map Driver cs) c = Raised e /\
                  fst (initialize_ensenso ensenso p w) = Thrown e)).
Proof.
  unfold initialize_ensenso.
  repeat match goal with
         | |- context [bind (driver _ ?c) _ ?w0] =>
             let b := fresh "b" in let e := fresh "e" in let Hb := fresh "Hb" in
             destruct (grabber_call ensenso (trace w0 ++ [Driver c]) c)
               as [b|e] eqn:Hb;
             [ rewrite (driver_then c b _ _ Hb)
             | rewrite (driver_raises c e _ _ Hb);
               cbn in Hb; rewrite <- ?app_assoc in Hb; cbn in Hb;
               first
                 [ solve [ exists (take 1 (startup_calls p)); split;
                     [cbn; rewrite <- ?app_assoc; reflexivity|];
                     split; [apply prefix_take|]; right; exists c, e;
                     split; [reflexivity|]; split; [exact Hb|reflexivity] ]
                 | solve [ exists (take 2 (startup_calls p)); split;
                     [cbn; rewrite <- ?app_assoc; reflexivity|];
                     split; [apply prefix_take|]; right; exists c, e;
                     split; [reflexivity|]; split; [exact Hb|reflexivity] ]
                 | solve [ exists (take 3 (startup_calls p)); split;
                     [cbn; rewrite <- ?app_assoc; reflexivity|];
                     split; [apply prefix_take|]; right; exists c, e;
                     split; [reflexivity|]; split; [exact Hb|reflexivity] ]
                 | solve [ exists (take 4 (startup_calls p)); split;
                     [cbn; rewrite <- ?app_assoc; reflexivity|];
                     split; [apply prefix_take|]; right; exists c, e;
                     split; [reflexivity|]; split; [exact Hb|reflexivity] ]
                 | solve [ exists (take 5 (startup_calls p)); split;
                     [cbn; rewrite <- ?app_assoc; reflexivity|];
                     split; [apply prefix_take|]; right; exists c, e;
                     split; [reflexivity|]; split; [exact Hb|reflexivity] ]
                 | solve [ exists (take 6 (startup_calls p)); split;
                     [cbn; rewrite <- ?app_assoc; reflexivity|];
                     split; [apply prefix_take|]; right; exists c, e;
                     split; [reflexivity|]; split; [exact Hb|reflexivity] ]
                 | solve [ exists (take 7 (startup_calls p)); split;
                     [cbn; rewrite <- ?app_assoc; reflexivity|];
                     split; [apply prefix_take|]; right; exists c, e;
                     split; [reflexivity|]; split; [exact Hb|reflexivity] ] ] ]
         end.
  exists (startup_calls p). split; [cbn; rewrite <- ?app_assoc; reflexivity|].
  split; [reflexivity|]. left. split; reflexivity.
Qed.

(** The trace of the constructor, whatever the driver does. *)
Lemma ctor_trace (ps : gmap string XmlRpcValue) (w : World) :
  let r := HandeyeCalibration_ctor ensenso ps w in
  let p := parameters_of ps in
  exists cs,
    emitted w (snd r) = parameter_warnings ps ++ advertised ++ map Driver cs /\
    cs `prefix_of` startup_calls p /\
    ((fst r = Returned (node_of p) /\ cs = startup_calls p) \/
     (exists c e, last cs = Some c /\
                  grabber_call ensenso
                    (trace w ++ parameter_warnings ps ++ advertised ++ map Driver cs) c
                    = Raised e /\
                  fst r = Thrown e)).
Proof.
  cbv zeta. unfold HandeyeCalibration_ctor, bind.
  rewrite read_parameters_run, advertise_topics_run.
  match goal with |- context [initialize_ensenso _ ?p ?w1] =>
    destruct (initialize_ensenso_prefix p w1) as (cs & Htr & Hpre & Hend);
    destruct (initialize_ensenso ensenso p w1) as [[u|e| |] w2] eqn:Hi end;
    cbv beta iota; unfold ret; cbn [fst snd trace] in *; exists cs;
    (split; [apply emitted_app; rewrite Htr, <- !app_assoc; reflexivity|]);
    (split; [exact Hpre|]).
  - destruct Hend as [[_ ->]|(c & e & _ & _ & He)]; [|discriminate He].
    left. split; reflexivity.
  - destruct Hend as [[He _]|(c & e' & Hl & Hc & He)]; [discriminate He|].
    right. exists c, e'. split; [exact Hl|]. split; [|congruence].
    rewrite <- !app_assoc in Hc. exact Hc.
  - destruct Hend as [[He _]|(c & e' & _ & _ & He)]; discriminate He.
  - destruct Hend as [[He _]|(c & e' & _ & _ & He)]; discriminate He.
Qed.

(** The constructor can only return after every driver call of the
    start-up sequence has returned, and the trace it leaves has one
    shape. *)
Lemma ctor_returned (ps : gmap string XmlRpcValue) (w w' : World)
    (self : HandeyeCalibration) :
  HandeyeCalibration_ctor ensenso ps w = (Returned self, w') ->
  self = node_of (parameters_of ps) /\
  trace w' = trace w ++ parameter_warnings ps ++ advertised ++
             map Driver (startup_calls (parameters_of ps)).
Proof.
  intros Hc.
  destruct (ctor_trace ps w) as (cs & Hev & _ & Hend). cbv zeta in Hev, Hend.
  rewrite Hc in Hev, Hend. cbn [fst snd] in *.
  destruct Hend as [[Hn ->]|(c & e & _ & _ & He)]; [|discriminate He].
  split; [congruence|].
  assert (Hext : trace w' = trace w ++ emitted w w').
  { unfold emitted. revert Hc. unfold HandeyeCalibration_ctor, bind.
    rewrite read_parameters_run, advertise_topics_run.
    match goal with |- context [initialize_ensenso _ ?p ?w1] =>
      destruct (initialize_ensenso_prefix p w1) as (cs & Htr & _);
      destruct (initialize_ensenso ensenso p w1) as [[u|e| |] w2] end;
      try discriminate.
    unfold ret. intros [= _ <-]. cbn [snd trace] in Htr.
    rewrite Htr, <- !app_assoc, drop_app_length. reflexivity. }
  rewrite Hext, Hev. reflexivity.
Qed.

(** C6, as the code has it. Whatever the driver does, the constructor
    advertises its five channels before its first driver call, so before
    the device is opened. If every driver call returns, also when
    opening the device or the control channel reports failure through
    its result, it runs the whole start-up sequence, through start, and
    returns the node. *)
Theorem C6_channels_advertised_before_device_opened
    (ps : gmap string XmlRpcValue) (w : World) :
  let r := HandeyeCalibration_ctor ensenso ps w in
  (exists cs,
     cs <> [] /\
     emitted w (snd r) = parameter_warnings ps ++ advertised ++ map Driver cs) /\
  ((forall h c, exists b, grabber_call ensenso h c = Answered b) ->
   fst r = Returned (node_of (parameters_of ps)) /\
   emitted w (snd r) =
     parameter_warnings ps ++ advertised ++
     map Driver (startup_calls (parameters_of ps))).
Proof.
  cbv zeta.
  destruct (ctor_trace ps w) as (cs & Hev & _ & Hend). cbv zeta in Hev, Hend.
  split.
  - exists cs. split; [|exact Hev].
    destruct Hend as [[_ ->]|(c & e & Hl & _)]; [discriminate|].
    intros ->. discriminate Hl.
  - intros Hret.
    destruct Hend as [[Hn ->]|(c & e & _ & Hc & _)]; [auto|].
    destruct (Hret (trace w ++ parameter_warnings ps ++ advertised ++ map Driver cs) c)
      as [b Hb].
    congruence.
Qed.

(** C4, as the code has it. The destructor first closes the control
    channel and, when that call returns, also with a reported failure,
    then closes the device: exactly these two driver calls, in this
    order. When closing the control channel raises it is the only call.
    The destructor never calls stop. *)
Theorem C4_teardown_closes_port_then_device (self : HandeyeCalibration)
    (w : World) :
  let calls :=
    driver_calls (emitted w (snd (HandeyeCalibration_dtor ensenso cxx self w))) in
  ~ In Stop calls /\
  match grabber_call ensenso (trace w ++ [Driver CloseTcpPort]) CloseTcpPort with
  | Answered _ => calls = [CloseTcpPort; CloseDevice]
  | Raised _ => calls = [CloseTcpPort]
  end.
Proof.
  cbv zeta.
  unfold HandeyeCalibration_dtor, leave_destructor, driver, bind, emit, ask,
    emitted. cbn.
  destruct (grabber_call ensenso (trace w ++ [Driver CloseTcpPort]) CloseTcpPort); cbn.
  - destruct (grabber_call ensenso _ CloseDevice); cbn;
      try destruct cxx; cbn; rewrite <- app_assoc, drop_app_length; cbn;
      split; try reflexivity; intuition discriminate.
  - destruct cxx; cbn; rewrite drop_app_length; cbn;
      split; try reflexivity; intuition discriminate.
Qed.

End Lifecycle.

Lemma C6_counterexample_unreachable_device_advertised :
  device_unreachable ex_grabber_unreachable "150533" /\
  ~ fails_hard_without_advertising
      (fst (HandeyeCalibration_ctor ex_grabber_unreachable ∅ (ex_world ex_triple)))
      (emitted (ex_world ex_triple)
         (snd (HandeyeCalibration_ctor ex_grabber_unreachable ∅ (ex_world ex_triple)))).
Proof.
  split.
  - left. intros h. cbn. discriminate.
  - intros [[e He] _]. vm_compute in He. discriminate He.
Qed.

(** The same start-up, evaluated: the node is returned, the channels are
    advertised, then the device is opened. *)
Example unreachable_device_startup_trace :
  let r := HandeyeCalibration_ctor ex_grabber_unreachable ∅ (ex_world ex_triple) in
  fst r = Returned ex_node /\
  filter is_advertise (trace (snd r)) = advertised /\
  driver_calls (trace (snd r)) =
    [ OpenDevice "150533"; OpenTcpPort; ConfigureCapture; EnableProjector false;
      EnableFrontLight false; RegisterCallback; Start ].
Proof. vm_compute. repeat split. Qed.

Lemma C6_witness_unreachable_device :
  fst (HandeyeCalibration_ctor ex_grabber_unreachable ∅ (ex_world ex_triple)) =
    Returned (node_of (parameters_of ∅)) /\
  emitted (ex_world ex_triple)
    (snd (HandeyeCalibration_ctor ex_grabber_unreachable ∅ (ex_world ex_triple))) =
    parameter_warnings ∅ ++ advertised ++
    map Driver (startup_calls (parameters_of ∅)).
Proof.
  apply (proj2 (C6_channels_advertised_before_device_opened
                  ex_grabber_unreachable ∅ (ex_world ex_triple))).
  intros h c. destruct c; eexists; reflexivity.
Defined.

Lemma C4_counterexample_no_stop :
  driver_calls
    (emitted (ex_world ex_triple)
       (snd (HandeyeCalibration_dtor ex_grabber Cxx11 ex_node (ex_world ex_triple))))
  <> specified_teardown.
Proof. vm_compute. discriminate. Qed.

(** The control channel reports a failure on closing: the device is
    closed all the same. *)
Example teardown_after_reported_failure :
  driver_calls
    (emitted (ex_world ex_triple)
       (snd (HandeyeCalibration_dtor ex_grabber_close_fails Cxx11 ex_node
                                     (ex_world ex_triple)))) =
  [CloseTcpPort; CloseDevice].
Proof. vm_compute. reflexivity. Qed.

(** ** The transport *)

Lemma transport_app (tr1 tr2 : list Event) :
  transport (tr1 ++ tr2) = fold_left transport_step tr2 (transport tr1).
Proof. apply fold_left_app. Qed.

Lemma transport_drivers (cs : list DriverCall) (T : gmap string Topic) :
  fold_left transport_step (map Driver cs) T = T.
Proof. induction cs; cbn; auto. Qed.

Lemma transport_parameter_warnings (ps : gmap string XmlRpcValue)
    (T : gmap string Topic) :
  fold_left transport_step (parameter_warnings ps) T = T.
Proof.
  unfold parameter_warnings, missing_warning.
  destruct (hasParam ps "serial_no"), (hasParam ps "camera_frame_id"),
    (hasParam ps "front_light"), (hasParam ps "projector"); reflexivity.
Qed.

Lemma publish_transient (T : gmap string Topic) (t : string) (m : Message) :
  T !! t = Some (mkTopic false None) -> transport_step T (Publish t m) = T.
Proof. cbn. by intros ->. Qed.

Lemma publish_latched (T : gmap string Topic) (t : string) (m : Message)
    (r : option Message) :
  T !! t = Some (mkTopic true r) ->
  transport_step T (Publish t m) = <[t := mkTopic true (Some m)]> T.
Proof. cbn. by intros ->. Qed.

Lemma node_transport_publish_cloud (T : gmap string Topic) (m : Message) :
  node_transport T ->
  node_transport (<["depth/points" := mkTopic true (Some m)]> T).
Proof.
  intros [_ Himg]. split.
  - eexists. apply lookup_insert_eq.
  - intros t Ht. rewrite lookup_insert_ne; [by apply Himg|].
    intros <-. cbn in Ht. intuition discriminate.
Qed.

Lemma last_publication_app (topic : string) (tr1 tr2 : list Event) :
  last_publication topic (tr1 ++ tr2) =
  match last_publication topic tr2 with
  | Some m => Some m
  | None => last_publication topic tr1
  end.
Proof. unfold last_publication. rewrite omap_app. apply last_app. Qed.

(** The transport right after a constructor that returned. *)
Lemma transport_after_ctor (ps : gmap string XmlRpcValue) (cs : list DriverCall) :
  let tr := parameter_warnings ps ++ advertised ++ map Driver cs in
  node_transport (transport tr) /\
  late_subscriber (transport tr) "depth/points" = None /\
  last_publication "depth/points" tr = None.
Proof.
  cbv zeta. rewrite transport_app, fold_left_app, transport_drivers.
  change (transport (parameter_warnings ps))
    with (fold_left transport_step (parameter_warnings ps) ∅).
  rewrite transport_parameter_warnings.
  rewrite !last_publication_app.
  assert (Hw : last_publication "depth/points" (parameter_warnings ps) = None).
  { unfold parameter_warnings, missing_warning.
    destruct (hasParam ps "serial_no"), (hasParam ps "camera_frame_id"),
      (hasParam ps "front_light"), (hasParam ps "projector"); reflexivity. }
  assert (Hd : last_publication "depth/points" (map Driver cs) = None).
  { unfold last_publication. induction cs; cbn; auto. }
  rewrite Hw, Hd. cbn.
  split; [split|split; [|reflexivity]].
  - eexists. apply lookup_insert_eq.
  - intros t Ht. cbn in Ht.
    destruct Ht as [<-|[<-|[<-|[<-|[]]]]]; by simplify_map_eq.
  - unfold late_subscriber. by simplify_map_eq.
Qed.


Section Latching.

Variable ensenso : EnsensoGrabber.
Variable ros_time_now : nat -> Time.
Variable arg_order : ArgOrder.

(** What one delivery adds to the trace: the queries, and the first k of
    the five publications, all five exactly when the callback returns. *)
Lemma deliver_trace (self : HandeyeCalibration) (t : FrameTriple) (w : World) :
  exists qs k li ri,
    trace (snd (deliver ensenso ros_time_now arg_order self t w)) =
      trace w ++ qs ++
      map publish_event
          (take k (callback_publications ros_time_now arg_order self t
                                         (clock_reads w) li ri)) /\
    (qs = [Query "Left"] \/ qs = [Query "Left"; Query "Right"]) /\
    (k = 5 \/ k < 4)%nat.
Proof.
  unfold deliver.
  destruct (grabberCallback_shape ensenso ros_time_now arg_order self
              (mkWorld (clock_reads w) (trace w) t))
    as (qs & k & li & ri & Ht & Hq & Hk).
  exists qs, k, li, ri. split; [exact Ht|]. split; [exact Hq|].
  destruct Hk as [(-> & _)|(Hk & _)]; auto.
Qed.

(** One delivery keeps the transport of the node in shape, and a late
    subscriber of the cloud topic is handed the last cloud published. *)
Lemma deliver_latching (p : Parameters) (t : FrameTriple) (w : World) :
  node_transport (transport (trace w)) ->
  late_subscriber (transport (trace w)) "depth/points" =
    last_publication "depth/points" (trace w) ->
  let w' := snd (deliver ensenso ros_time_now arg_order (node_of p) t w) in
  node_transport (transport (trace w')) /\
  late_subscriber (transport (trace w')) "depth/points" =
    last_publication "depth/points" (trace w').
Proof.
  intros HT Hlate w'. subst w'.
  destruct (deliver_trace (node_of p) t w) as (qs & k & li & ri & -> & Hq & Hk).
  rewrite transport_app, last_publication_app.
  pose proof HT as [[r Hr] Himg].
  set (c := MsgCloud (cloud_with_frame (cloud t) (camera_frame_id p))).
  set (pubs := callback_publications ros_time_now arg_order (node_of p) t
                                     (clock_reads w) li ri).
  assert (Hcut : forall n, (n < 4)%nat ->
            last_publication "depth/points" (qs ++ map publish_event (take n pubs))
              = None /\
            fold_left transport_step (qs ++ map publish_event (take n pubs))
                      (transport (trace w)) = transport (trace w)).
  { intros n Hn. rewrite fold_left_app.
    assert (Hqs : fold_left transport_step qs (transport (trace w)) =
                  transport (trace w)) by (destruct Hq as [-> | ->]; reflexivity).
    rewrite Hqs.
    destruct n as [|[|[|[|n]]]]; try lia;
      (split; [destruct Hq as [-> | ->]; reflexivity|]);
      subst pubs; cbn [take firstn map fold_left callback_publications];
      unfold publish_event;
      cbn [fst snd node_of l_raw_pub_ r_raw_pub_ l_rectified_pub_
           r_rectified_pub_ cloud_pub_ pub_topic camera_frame_id_];
      rewrite ?(publish_transient _ "left/image_raw") by (apply Himg; cbn; auto);
      rewrite ?(publish_transient _ "right/image_raw") by (apply Himg; cbn; auto);
      rewrite ?(publish_transient _ "left/image_rect") by (apply Himg; cbn; auto);
      reflexivity. }
  destruct Hk as [-> | Hk].
  - assert (Hlast :
      last_publication "depth/points" (qs ++ map publish_event (take 5 pubs)) = Some c)
      by (destruct Hq as [-> | ->]; reflexivity).
    rewrite Hlast.
    assert (Hstep :
      fold_left transport_step (qs ++ map publish_event (take 5 pubs))
                (transport (trace w)) =
      <["depth/points" := mkTopic true (Some c)]> (transport (trace w))).
    { rewrite fold_left_app.
      assert (Hqs : fold_left transport_step qs (transport (trace w)) =
                    transport (trace w)) by (destruct Hq as [-> | ->]; reflexivity).
      rewrite Hqs. subst pubs.
      cbn [take firstn map fold_left callback_publications]. unfold publish_event.
      cbn [fst snd node_of l_raw_pub_ r_raw_pub_ l_rectified_pub_
           r_rectified_pub_ cloud_pub_ pub_topic camera_frame_id_].
      rewrite (publish_transient _ "left/image_raw") by (apply Himg; cbn; auto).
      rewrite (publish_transient _ "right/image_raw") by (apply Himg; cbn; auto).
      rewrite (publish_transient _ "left/image_rect") by (apply Himg; cbn; auto).
      rewrite (publish_transient _ "right/image_rect") by (apply Himg; cbn; auto).
      apply (publish_latched _ _ _ r Hr). }
    rewrite Hstep.
    split; [by apply node_transport_publish_cloud|].
    unfold late_subscriber. rewrite lookup_insert_eq. reflexivity.
  - destruct (Hcut k Hk) as [Hl Hs]. rewrite Hl, Hs. auto.
Qed.

Lemma deliver_all_latching (p : Parameters) (ts : list FrameTriple) (w : World) :
  node_transport (transport (trace w)) ->
  late_subscriber (transport (trace w)) "depth/points" =
    last_publication "depth/points" (trace w) ->
  let w' := deliver_all ensenso ros_time_now arg_order (node_of p) ts w in
  node_transport (transport (trace w')) /\
  late_subscriber (transport (trace w')) "depth/points" =
    last_publication "depth/points" (trace w').
Proof.
  revert w. induction ts as [|t ts IH]; intros w HT Hlate; [by cbn|].
  cbn [deliver_all].
  destruct (deliver_latching p t w HT Hlate) as [HT' Hlate'].
  destruct (deliver ensenso ros_time_now arg_order (node_of p) t w)
    as [[u|e| |] w1]; cbn [snd] in *; auto.
Qed.

(** C9. The cloud topic is advertised latched and the four image topics
    are not: after the node has started and any deliveries have run, a
    subscriber that connects to "depth/points" is handed at once the
    last cloud that was published there, with no new capture, while a
    subscriber that connects to an image topic is handed nothing. *)
Theorem C9_cloud_latched_images_transient
    (ps : gmap string XmlRpcValue) (w0 w1 : World)
    (self : HandeyeCalibration) (ts : list FrameTriple) :
  trace w0 = [] ->
  HandeyeCalibration_ctor ensenso ps w0 = (Returned self, w1) ->
  let w2 := deliver_all ensenso ros_time_now arg_order self ts w1 in
  pub_latch (cloud_pub_ self) = true /\
  late_subscriber (transport (trace w2)) "depth/points" =
    last_publication "depth/points" (trace w2) /\
  forall topic, In topic image_topics ->
    late_subscriber (transport (trace w2)) topic = None.
Proof.
  intros Hempty Hctor w2.
  apply ctor_returned in Hctor as [-> Htr]. rewrite Hempty, app_nil_l in Htr.
  destruct (transport_after_ctor ps (startup_calls (parameters_of ps)))
    as (HT & Hlate & Hlast).
  cbv zeta in HT, Hlate, Hlast. rewrite <- Htr in HT, Hlate, Hlast.
  destruct (deliver_all_latching (parameters_of ps) ts w1 HT) as [[_ Himg] Hl2].
  { by rewrite Hlate, Hlast. }
  split; [reflexivity|]. split; [exact Hl2|].
  intros topic Ht. unfold late_subscriber. subst w2.
  by rewrite (Himg topic Ht).
Qed.

End Latching.

(** After one delivery a late subscriber of the cloud topic gets that
    delivery's cloud, labelled; the image topics hand out nothing. *)
Example late_subscriber_gets_last_cloud :
  let w1 := snd (HandeyeCalibration_ctor ex_grabber ∅ (ex_world ex_triple)) in
  let w2 := deliver_all ex_grabber ex_clock LeftToRight ex_node [ex_triple] w1 in
  late_subscriber (transport (trace w2)) "depth/points" =
    Some (MsgCloud (cloud_with_frame ex_cloud "ensenso_optical_frame")) /\
  map (late_subscriber (transport (trace w2))) image_topics =
    [None; None; None; None].
Proof. vm_compute. split; reflexivity. Qed.

Lemma C9_witness_one_delivery :
  let w2 := deliver_all ex_grabber ex_clock LeftToRight ex_node [ex_triple]
              (snd (HandeyeCalibration_ctor ex_grabber ∅ (ex_world ex_triple))) in
  pub_latch (cloud_pub_ ex_node) = true /\
  late_subscriber (transport (trace w2)) "depth/points" =
    last_publication "depth/points" (trace w2) /\
  forall topic, In topic image_topics ->
    late_subscriber (transport (trace w2)) topic = None.
Proof.
  apply (C9_cloud_latched_images_transient ex_grabber ex_clock LeftToRight ∅
           (ex_world ex_triple)
           (snd (HandeyeCalibration_ctor ex_grabber ∅ (ex_world ex_triple)))
           ex_node [ex_triple]).
  - reflexivity.
  - vm_compute. reflexivity.
Defined.

(** * Further properties of the code *)

(** ** The conversion, byte for byte *)

Lemma to_int_dimension (z : Z) : is_dimension z -> to_int z = z.
Proof.
  unfold is_dimension, to_int. intros Hz.
  rewrite Z.mod_small by lia.
  destruct (z <? 2 ^ 31) eqn:E; [reflexivity|].
  apply Z.ltb_ge in E. lia.
Qed.

Lemma channels_cases (enc : string) : channels enc = 1 \/ channels enc = 3.
Proof.
  unfold channels, output_type. destruct (String.eqb enc "CV_8UC3"); cbn; auto.
Qed.

(** X1. When the buffer of an image holds exactly height x width x
    channels bytes (dimensions that fit an [int], a size that fits 32
    bits), [toImageMsg] copies it unchanged: the message carries the very
    bytes of the buffer, its step is width x channels, and step x height
    is the length of its data. *)
Theorem X1_toImageMsg_copies_the_buffer (ros_time_now : nat -> Time)
    (pcl_image : PCLImage) (w : World) :
  is_dimension (pi_height pcl_image) ->
  is_dimension (pi_width pcl_image) ->
  pi_width pcl_image * channels (pi_encoding pcl_image) < 2 ^ 32 ->
  Z.of_nat (length (pi_data pcl_image)) =
    pi_width pcl_image * channels (pi_encoding pcl_image) * pi_height pcl_image ->
  Z.of_nat (length (pi_data pcl_image)) < 2 ^ 32 ->
  exists m w',
    toImageMsg ros_time_now pcl_image w = (Returned m, w') /\
    img_data m = pi_data pcl_image /\
    img_step m = pi_width pcl_image * channels (pi_encoding pcl_image) /\
    img_step m * img_height m = Z.of_nat (length (img_data m)).
Proof.
  intros Hh Hw Hstep Hlen Hsize.
  pose proof (channels_cases (pi_encoding pcl_image)) as Hc.
  assert (Hread : bytes_read pcl_image = Z.of_nat (length (pi_data pcl_image))).
  { unfold bytes_read, copy_size, image_mat. cbn.
    rewrite (to_int_dimension _ Hw), (to_int_dimension _ Hh).
    fold (channels (pi_encoding pcl_image)). unfold to_uint32.
    rewrite (Z.mod_small (pi_width pcl_image * _)).
    2:{ unfold is_dimension in Hw. lia. }
    rewrite Z.mod_small; [lia|]. rewrite <- Hlen. lia. }
  eexists _, _. split.
  { rewrite toImageMsg_run. unfold in_bounds. rewrite Hread, Z.leb_refl.
    reflexivity. }
  assert (Hs : img_step (image_msg pcl_image (ros_time_now (clock_reads w))) =
               pi_width pcl_image * channels (pi_encoding pcl_image)).
  { cbn. rewrite (to_int_dimension _ Hw). unfold to_uint32.
    apply Z.mod_small. unfold is_dimension in Hw. unfold channels in *. lia. }
  assert (Hd : img_data (image_msg pcl_image (ros_time_now (clock_reads w))) =
               pi_data pcl_image).
  { cbn [img_data image_msg]. fold (bytes_read pcl_image).
    rewrite Hread, Nat2Z.id. apply firstn_all. }
  split; [exact Hd|]. split; [exact Hs|].
  rewrite Hs, Hd, Hlen.
  rewrite image_msg_height; [reflexivity|].
  unfold is_dimension in Hh. unfold is_uint32. lia.
Qed.

Lemma X1_witness_2x2_color :
  exists m w',
    toImageMsg ex_clock (ex_image 2 2 "CV_8UC3" 12) (ex_world ex_triple)
      = (Returned m, w') /\
    img_data m = pi_data (ex_image 2 2 "CV_8UC3" 12) /\
    img_step m = pi_width (ex_image 2 2 "CV_8UC3" 12)
                 * channels (pi_encoding (ex_image 2 2 "CV_8UC3" 12)) /\
    img_step m * img_height m = Z.of_nat (length (img_data m)).
Proof.
  apply (X1_toImageMsg_copies_the_buffer ex_clock (ex_image 2 2 "CV_8UC3" 12)
           (ex_world ex_triple)).
  - unfold is_dimension. cbn. lia.
  - unfold is_dimension. cbn. lia.
  - vm_compute. reflexivity.
  - vm_compute. reflexivity.
  - vm_compute. reflexivity.
Defined.

(** X2. An image of height 0 or of width 0 is converted to a message
    without pixel bytes, whatever its buffer holds. *)
Theorem X2_toImageMsg_empty_image (ros_time_now : nat -> Time)
    (pcl_image : PCLImage) (w : World) :
  pi_height pcl_image = 0 \/ pi_width pcl_image = 0 ->
  exists m w',
    toImageMsg ros_time_now pcl_image w = (Returned m, w') /\
    img_data m = [].
Proof.
  intros H.
  assert (Hread : bytes_read pcl_image = 0).
  { unfold bytes_read, copy_size, image_mat. cbn. destruct H as [-> | ->].
    - change (to_int 0) with 0. rewrite Z.mul_0_r. reflexivity.
    - destruct (output_type (pi_encoding pcl_image)); reflexivity. }
  eexists _, _. split.
  { rewrite toImageMsg_run. unfold in_bounds. rewrite Hread.
    assert (Hle : (0 <=? Z.of_nat (length (pi_data pcl_image))) = true)
      by (apply Z.leb_le; lia).
    rewrite Hle. reflexivity. }
  cbn [img_data image_msg]. fold (bytes_read pcl_image). rewrite Hread.
  reflexivity.
Qed.

Lemma X2_witness_zero_height :
  exists m w',
    toImageMsg ex_clock (ex_image 0 640 "CV_8UC1" 100) (ex_world ex_triple)
      = (Returned m, w') /\
    img_data m = [].
Proof.
  apply (X2_toImageMsg_empty_image ex_clock (ex_image 0 640 "CV_8UC1" 100)
           (ex_world ex_triple)).
  left. reflexivity.
Defined.

(** ** Reading the parameters *)

Lemma read_parameters_warnings (ps : gmap string XmlRpcValue) :
  warnings (parameter_warnings ps) =
  map default_warning
      (filter (fun o => negb (hasParam ps (option_key o))) all_options).
Proof.
  unfold parameter_warnings, missing_warning, parameters_of, hasParam,
    param_string, param_bool, all_options.
  cbn [serial_no camera_frame_id front_light projector].
  destruct (ps !! "serial_no") as [v1|] eqn:E1;
    destruct (ps !! "camera_frame_id") as [v2|] eqn:E2;
    destruct (ps !! "front_light") as [v3|] eqn:E3;
    destruct (ps !! "projector") as [v4|] eqn:E4;
    cbn; rewrite ?E1, ?E2, ?E3, ?E4; reflexivity.
Qed.

(** X9. The warnings of the constructor are exactly one per option whose
    key is absent from the parameter server, in the order serial_no,
    camera_frame_id, front_light, projector, each naming the key and the
    default; a key that is present never produces a warning. *)
Theorem X9_one_warning_per_absent_key (ps : gmap string XmlRpcValue) (w : World) :
  warnings (emitted w (snd (read_parameters ps w))) =
  map default_warning
      (filter (fun o => negb (hasParam ps (option_key o))) all_options).
Proof.
  rewrite read_parameters_run. cbn [snd].
  erewrite emitted_app by reflexivity.
  apply read_parameters_warnings.
Qed.

Lemma default_warning_inj (o o' : ConfigOption) :
  default_warning o = default_warning o' -> o = o'.
Proof.
  destruct o, o'; intros H; try reflexivity; vm_compute in H; discriminate H.
Qed.

(** X10. A key that is present decides the value without a word: when
    the stored value has the type the option asks for it is used, when
    it has another type the documented default is used instead, and in
    both cases no warning about this option is emitted. *)
Theorem X10_present_key_typed_or_silent_default
    (ps : gmap string XmlRpcValue) (o : ConfigOption) (v : XmlRpcValue) (w : World) :
  ps !! option_key o = Some v ->
  exists p w',
    read_parameters ps w = (Returned p, w') /\
    option_value p o = (if well_typed o v then v else documented_default o) /\
    ~ In (default_warning o) (warnings (emitted w w')).
Proof.
  intros Hv. eexists _, _. split; [apply read_parameters_run|]. split.
  - destruct o; cbn in Hv |- *;
      unfold param_string, param_bool; rewrite Hv; destruct v; reflexivity.
  - erewrite emitted_app by reflexivity.
    rewrite read_parameters_warnings.
    intros Hin. apply in_map_iff in Hin as (o' & Heq & Hin).
    apply default_warning_inj in Heq. subst o'.
    apply list_elem_of_In, list_elem_of_filter in Hin as [Hp _].
    unfold hasParam in Hp. rewrite Hv in Hp. exact Hp.
Qed.

Lemma X10_witness_front_light_string :
  exists p w',
    read_parameters ex_params (ex_world ex_triple) = (Returned p, w') /\
    option_value p FrontLight =
      (if well_typed FrontLight (XString "true") then XString "true"
       else documented_default FrontLight) /\
    ~ In (default_warning FrontLight)
         (warnings (emitted (ex_world ex_triple) w')).
Proof.
  apply (X10_present_key_typed_or_silent_default ex_params FrontLight
           (XString "true") (ex_world ex_triple)).
  vm_compute. reflexivity.
Defined.

(** The same parameter server, evaluated: the label is taken, the
    string stored for the front light is passed over in silence. *)
Example read_parameters_ex_params :
  let r := read_parameters ex_params (ex_world ex_triple) in
  fst r = Returned (mkParameters "150533" "camera_link" false false) /\
  warnings (trace (snd r)) =
    [ "Parameter [~serial_no] not found, using default: 150533";
      "Parameter [~projector] not found, using default: 0" ].
Proof. vm_compute. split; reflexivity. Qed.

(** ** Start-up and teardown when a driver call raises *)

Section LifecycleFurther.

Variable ensenso : EnsensoGrabber.
Variable cxx : Standard.

(** X11. Whatever the driver does, the constructor has advertised its
    five channels before its first driver call, and its driver calls are
    an initial part of the start-up sequence (open device, open control
    channel, configure, projector, front light, register callback,
    start): either all of it, and the node is returned, or it ends with
    the first call that raised, whose exception the constructor
    raises. *)
Theorem X11_constructor_stops_at_first_raising_call
    (ps : gmap string XmlRpcValue) (w : World) :
  let r := HandeyeCalibration_ctor ensenso ps w in
  let p := parameters_of ps in
  exists cs,
    emitted w (snd r) = parameter_warnings ps ++ advertised ++ map Driver cs /\
    cs `prefix_of` startup_calls p /\
    ((fst r = Returned (node_of p) /\ cs = startup_calls p) \/
     (exists c e, last cs = Some c /\
                  grabber_call ensenso
                    (trace w ++ parameter_warnings ps ++ advertised ++ map Driver cs) c
                    = Raised e /\
                  fst r = Thrown e)).
Proof. exact (ctor_trace ensenso ps w). Qed.

Lemma driver_calls_of_ctor_trace (ps : gmap string XmlRpcValue) (cs : list DriverCall) :
  driver_calls (parameter_warnings ps ++ advertised ++ map Driver cs) = cs.
Proof.
  unfold driver_calls. rewrite !omap_app.
  assert (Hw : omap driver_call_of (parameter_warnings ps) = []).
  { unfold parameter_warnings, missing_warning.
    destruct (hasParam ps "serial_no"), (hasParam ps "camera_frame_id"),
      (hasParam ps "front_light"), (hasParam ps "projector"); reflexivity. }
  rewrite Hw. cbn. induction cs as [|c cs IH]; cbn; [reflexivity|by rewrite IH].
Qed.

Lemma publications_of_ctor_trace (ps : gmap string XmlRpcValue) (cs : list DriverCall) :
  publications (parameter_warnings ps ++ advertised ++ map Driver cs) = [].
Proof.
  unfold publications. rewrite !omap_app.
  assert (Hw : omap publication (parameter_warnings ps) = []).
  { unfold parameter_warnings, missing_warning.
    destruct (hasParam ps "serial_no"), (hasParam ps "camera_frame_id"),
      (hasParam ps "front_light"), (hasParam ps "projector"); reflexivity. }
  rewrite Hw. cbn. induction cs as [|c cs IH]; cbn; [reflexivity|exact IH].
Qed.

(** X14. The configured serial number selects the device: when the
    parameter server holds the string s under serial_no, the first driver
    call of the constructor is openDevice(s), whatever the driver does
    afterwards. *)
Theorem X14_configured_serial_opens_the_device
    (ps : gmap string XmlRpcValue) (s : string) (w : World) :
  ps !! "serial_no" = Some (XString s) ->
  head (driver_calls (emitted w (snd (HandeyeCalibration_ctor ensenso ps w)))) =
    Some (OpenDevice s).
Proof.
  intros Hs.
  destruct (ctor_trace ensenso ps w) as (cs & Hev & [k Hpre] & Hend).
  cbv zeta in Hev. rewrite Hev, driver_calls_of_ctor_trace.
  assert (Hserial : serial_no (parameters_of ps) = s).
  { cbn. unfold param_string. by rewrite Hs. }
  destruct cs as [|c cs].
  - destruct Hend as [[_ Hcs]|(c & e & Hl & _)]; discriminate.
  - cbn in Hpre. injection Hpre as <- _. cbn in Hserial. cbn [head].
    by rewrite Hserial.
Qed.

(** X15. Only the callback publishes: neither the constructor nor the
    destructor sends a message on any topic, whatever the driver does. *)
Theorem X15_constructor_and_destructor_publish_nothing
    (ps : gmap string XmlRpcValue) (self : HandeyeCalibration) (w : World) :
  publications (emitted w (snd (HandeyeCalibration_ctor ensenso ps w))) = [] /\
  publications (emitted w (snd (HandeyeCalibration_dtor ensenso cxx self w))) = [].
Proof.
  split.
  - destruct (ctor_trace ensenso ps w) as (cs & Hev & _).
    cbv zeta in Hev. rewrite Hev. apply publications_of_ctor_trace.
  - unfold HandeyeCalibration_dtor, leave_destructor, driver, bind, emit, ask,
      emitted. cbn.
    destruct (grabber_call ensenso (trace w ++ [Driver CloseTcpPort]) CloseTcpPort); cbn.
    + destruct (grabber_call ensenso _ CloseDevice); cbn;
        try destruct cxx; cbn; rewrite <- app_assoc, drop_app_length; reflexivity.
    + destruct cxx; cbn; rewrite drop_app_length; reflexivity.
Qed.

(** X12. When closing the control channel raises, the destructor never
    closes the device and does not return: closeTcpPort is its only
    driver call, and the exception leaves the destructor in a C++03
    build and ends the process, through std::terminate, from C++11
    on. *)
Theorem X12_destructor_skips_device_when_port_raises
    (self : HandeyeCalibration) (w : World) (e : string) :
  grabber_call ensenso (trace w ++ [Driver CloseTcpPort]) CloseTcpPort = Raised e ->
  let r := HandeyeCalibration_dtor ensenso cxx self w in
  fst r = match cxx with Cxx03 => Thrown e | Cxx11 => Terminated end /\
  driver_calls (emitted w (snd r)) = [CloseTcpPort].
Proof.
  intros He. cbv zeta.
  unfold HandeyeCalibration_dtor, leave_destructor.
  rewrite (driver_raises ensenso _ e _ _ He).
  destruct cxx; cbn [fst snd]; (split; [reflexivity|]);
    unfold emitted; cbn; rewrite drop_app_length; reflexivity.
Qed.

End LifecycleFurther.

Lemma X14_witness_configured_serial :
  head (driver_calls
          (emitted (ex_world ex_triple)
             (snd (HandeyeCalibration_ctor ex_grabber_unreachable
                     (<["serial_no" := XString "160606"]> ∅)
                     (ex_world ex_triple))))) =
    Some (OpenDevice "160606").
Proof.
  apply (X14_configured_serial_opens_the_device ex_grabber_unreachable
           (<["serial_no" := XString "160606"]> ∅) "160606" (ex_world ex_triple)).
  vm_compute. reflexivity.
Defined.

Lemma X12_witness_port_raises :
  let r := HandeyeCalibration_dtor ex_grabber_close_raises Cxx11 ex_node
                                   (ex_world ex_triple) in
  fst r = Terminated /\
  driver_calls (emitted (ex_world ex_triple) (snd r)) = [CloseTcpPort].
Proof.
  exact (X12_destructor_skips_device_when_port_raises ex_grabber_close_raises
           Cxx11 ex_node (ex_world ex_triple) "NxLibException" eq_refl).
Defined.

(** ** Deliveries, and the label from the parameter server to the cloud *)

Section Deliveries.

Variable ensenso : EnsensoGrabber.
Variable ros_time_now : nat -> Time.
Variable arg_order : ArgOrder.

Lemma published_clouds_app (ps1 ps2 : list (string * Message)) :
  published_clouds (ps1 ++ ps2) = published_clouds ps1 ++ published_clouds ps2.
Proof. apply omap_app. Qed.

(** What a run of deliveries adds when every query returns and every
    buffer holds what is read from it. *)
Lemma deliver_all_run (self : HandeyeCalibration) (ts : list FrameTriple) (w : World) :
  (forall h cam info, exists ok i,
      grabber_getCameraInfo ensenso h cam info = Answered (ok, i)) ->
  forallb triple_in_bounds ts = true ->
  exists evs,
    trace (deliver_all ensenso ros_time_now arg_order self ts w) = trace w ++ evs /\
    map fst (publications evs) = flat_map (fun _ => node_topics self) ts /\
    Forall2 (fun c t => pcl_frame_id (pc_header c) = camera_frame_id_ self /\
                        cloud_payload c = cloud_payload (cloud t))
            (published_clouds (publications evs)) ts /\
    clock_reads (deliver_all ensenso ros_time_now arg_order self ts w) =
      (6 * length ts + clock_reads w)%nat.
Proof.
  intros Hq. revert w.
  induction ts as [|t ts IH]; intros w Hb.
  - exists []. cbn. rewrite app_nil_r. repeat split. constructor.
  - cbn in Hb. apply andb_prop in Hb as [Hbt Hbs].
    set (w0 := mkWorld (clock_reads w) (trace w) t).
    destruct (Hq (trace w0 ++ [Query "Left"]) "Left" CameraInfo_default)
      as (okl & li & Hl).
    destruct (Hq (trace w0 ++ [Query "Left"; Query "Right"]) "Right" CameraInfo_default)
      as (okr & ri & Hr).
    cbn [deliver_all]. unfold deliver. fold w0.
    rewrite (grabberCallback_run ensenso ros_time_now arg_order self w0
               okl okr li ri Hl Hr Hbt).
    match goal with |- context [deliver_all _ _ _ _ ts ?w1] =>
      destruct (IH w1 Hbs) as (evs & Htr & Htop & Hcl & Hck) end.
    eexists. split; [rewrite Htr; cbn [trace]; rewrite <- app_assoc; reflexivity|].
    rewrite !publications_app, publications_publish_events.
    split; [|split].
    + cbn. rewrite Htop. reflexivity.
    + rewrite !published_clouds_app. cbn.
      constructor; [split; reflexivity|exact Hcl].
    + rewrite Hck. subst w0. cbn [clock_reads length]. lia.
Qed.

(** X8. Deliveries whose queries return and whose buffers hold the bytes
    read from them are handled one by one and completely: after n of
    them the five publishers have sent n rounds of messages in the fixed
    order, the clouds that went out are the delivered clouds, in order
    of delivery, each carrying the configured label in its header and
    otherwise unchanged, and the clock was read six times per
    delivery. *)
Theorem X8_deliveries_publish_round_by_round (self : HandeyeCalibration)
    (ts : list FrameTriple) (w : World) :
  (forall h cam info, exists ok i,
      grabber_getCameraInfo ensenso h cam info = Answered (ok, i)) ->
  forallb triple_in_bounds ts = true ->
  let w' := deliver_all ensenso ros_time_now arg_order self ts w in
  let pubs := publications (emitted w w') in
  map fst pubs = flat_map (fun _ => node_topics self) ts /\
  Forall2 (fun c t => pcl_frame_id (pc_header c) = camera_frame_id_ self /\
                      cloud_payload c = cloud_payload (cloud t))
          (published_clouds pubs) ts /\
  clock_reads w' = (6 * length ts + clock_reads w)%nat.
Proof.
  intros Hq Hb. cbv zeta.
  destruct (deliver_all_run self ts w Hq Hb) as (evs & Htr & Htop & Hcl & Hck).
  rewrite (emitted_app _ _ _ Htr). auto.
Qed.

(** X13. The configured label reaches the cloud: when the parameter
    server holds the string f under camera_frame_id, the constructor
    returns, and the queries of a delivery return and its buffers hold
    the bytes read from them, a late subscriber of "depth/points" gets a
    cloud whose header carries the label f and whose points and other
    fields are those of the delivered cloud. *)
Theorem X13_configured_label_reaches_the_cloud
    (ps : gmap string XmlRpcValue) (f : string) (w0 w1 : World)
    (self : HandeyeCalibration) (t : FrameTriple)
    (okl okr : bool) (li ri : CameraInfo) :
  ps !! "camera_frame_id" = Some (XString f) ->
  trace w0 = [] ->
  HandeyeCalibration_ctor ensenso ps w0 = (Returned self, w1) ->
  left_answer ensenso w1 = Answered (okl, li) ->
  right_answer ensenso w1 = Answered (okr, ri) ->
  triple_in_bounds t = true ->
  let w2 := snd (deliver ensenso ros_time_now arg_order self t w1) in
  camera_frame_id_ self = f /\
  exists c,
    late_subscriber (transport (trace w2)) "depth/points" = Some (MsgCloud c) /\
    pcl_frame_id (pc_header c) = f /\
    cloud_payload c = cloud_payload (cloud t).
Proof.
  intros Hf Hempty Hctor Hl Hr Hb w2.
  apply ctor_returned in Hctor as [-> Htr]. rewrite Hempty, app_nil_l in Htr.
  assert (Hlabel : camera_frame_id (parameters_of ps) = f).
  { cbn. unfold param_string. by rewrite Hf. }
  split; [exact Hlabel|].
  exists (cloud_with_frame (cloud t) f). split; [|split; reflexivity].
  clear Hf. subst f.
  destruct (transport_after_ctor ps (startup_calls (parameters_of ps)))
    as (HT & Hlate & Hlast).
  cbv zeta in HT, Hlate, Hlast. rewrite <- Htr in HT, Hlate, Hlast.
  destruct (deliver_latching ensenso ros_time_now arg_order (parameters_of ps) t w1 HT)
    as [_ Hl2].
  { by rewrite Hlate, Hlast. }
  subst w2. rewrite Hl2. unfold deliver.
  rewrite (grabberCallback_run ensenso ros_time_now arg_order _
             (mkWorld (clock_reads w1) (trace w1) t) okl okr li ri Hl Hr Hb).
  cbn [snd trace]. rewrite last_publication_app. reflexivity.
Qed.

End Deliveries.

Lemma X8_witness_two_deliveries :
  let w' := deliver_all ex_grabber ex_clock LeftToRight ex_node
                        [ex_triple; ex_triple] (ex_world ex_triple) in
  let pubs := publications (emitted (ex_world ex_triple) w') in
  map fst pubs = flat_map (fun _ => node_topics ex_node) [ex_triple; ex_triple] /\
  Forall2 (fun c t => pcl_frame_id (pc_header c) = camera_frame_id_ ex_node /\
                      cloud_payload c = cloud_payload (cloud t))
          (published_clouds pubs) [ex_triple; ex_triple] /\
  clock_reads w' = (6 * length [ex_triple; ex_triple]
                    + clock_reads (ex_world ex_triple))%nat.
Proof.
  apply (X8_deliveries_publish_round_by_round ex_grabber ex_clock LeftToRight
           ex_node [ex_triple; ex_triple] (ex_world ex_triple)).
  - intros h cam info. eexists _, _. reflexivity.
  - reflexivity.
Defined.

Lemma ex_params_label :
  ex_params !! "camera_frame_id" = Some (XString "camera_link").
Proof. vm_compute. reflexivity. Qed.

Lemma X13_witness_camera_link :
  let w1 := snd (HandeyeCalibration_ctor ex_grabber ex_params (ex_world ex_triple)) in
  let self := node_of (parameters_of ex_params) in
  let w2 := snd (deliver ex_grabber ex_clock LeftToRight self ex_triple w1) in
  camera_frame_id_ self = "camera_link" /\
  exists c,
    late_subscriber (transport (trace w2)) "depth/points" = Some (MsgCloud c) /\
    pcl_frame_id (pc_header c) = "camera_link" /\
    cloud_payload c = cloud_payload (cloud ex_triple).
Proof.
  apply (X13_configured_label_reaches_the_cloud ex_grabber ex_clock LeftToRight
           ex_params "camera_link" (ex_world ex_triple)
           (snd (HandeyeCalibration_ctor ex_grabber ex_params (ex_world ex_triple)))
           (node_of (parameters_of ex_params)) ex_triple true true
           (ex_info "Left" CameraInfo_default) (ex_info "Right" CameraInfo_default)).
  - exact ex_params_label.
  - reflexivity.
  - vm_compute. reflexivity.
  - reflexivity.
  - reflexivity.
  - reflexivity.
Defined.
